(** * Gesture recognition core of the Gold Miner face controller (js/face.js)

    A shallow embedding of the gesture-recognition code of [js/face.js]:
    the sliding-window smoother, the smile and nod classifiers, the
    result handler registered with [faceMesh.onResults], the start-up
    sequence with its fallback events, and the frame pacer.

    Numbers.  A JavaScript number is an IEEE 754 binary64 value, which is
    what Rocq's primitive [float] is, so landmark coordinates, scores and
    buffers are [float]s and [+ - * / sqrt <] are the primitive
    operations.  The two cooldown timers and the frame counter only ever
    hold small non-negative integers; they are modelled as [Z].

    Effects.  [gameGestureState] is threaded explicitly: every function
    that mutates it takes the state and returns the new one.  Calls to
    [setStatus], [console.*] and [window.dispatchEvent] are recorded, in
    program order, in a list of [Event]s. *)

From Stdlib Require Import ZArith Lia Bool String Floats.
From stdpp Require Import base list.

Set Warnings "-inexact-float".

Local Open Scope string_scope.
Local Open Scope list_scope.
Local Open Scope Z_scope.

(** ** JavaScript numbers *)

Module Js.

(** [Math.max(a, b)]: NaN if either argument is NaN, and [+0] is larger
    than [-0]. *)
Definition Math_max (a b : float) : float :=
  if PrimFloat.is_nan a || PrimFloat.is_nan b then PrimFloat.nan
  else if (a <? b)%float then b
  else if (b <? a)%float then a
  else if PrimFloat.is_zero a then (a + b)%float
  else a.

Definition Math_sqrt (a : float) : float := PrimFloat.sqrt a.

(** An array length (below 2^32 in JavaScript) read as a number. *)
Definition of_length (n : nat) : float :=
  PrimFloat.of_uint63 (Uint63.of_Z (Z.of_nat n)).

(** [n++] on a number holding an integer: exact below 2^53, where
    [n + 1] rounds back to [n]. *)
Definition incr (n : Z) : Z :=
  if n <? 2 ^ 53 then n + 1 else n.

End Js.

(** ** Data model *)

(** A landmark [{x, y}].  A coordinate that is not a number is the NaN
    float: every use of a coordinate in the source is arithmetic, where
    [undefined] and NaN behave alike. *)
Record Landmark := { x : float; y : float }.

(** The landmark array of one face.  An entry of the array may be absent
    ([undefined], or an index past the end); the array itself is
    [undefined] when the detector hands over a malformed face list. *)
Definition Landmarks := option (list (option Landmark)).

(** [results] as delivered to the [onResults] callback: the field
    [multiFaceLandmarks] is undefined or an array with one entry per
    face. *)
Record Results := { multiFaceLandmarks : option (list Landmarks) }.

(** [gameGestureState] (source lines 28-37). *)
Record GestureState := {
  smileBuffer : list float;
  nodBuffer : list float;
  smileCooldown : Z;
  nodCooldown : Z;
  lastNoseY : option float;      (* [None] is [null] *)
  frameCount : Z;
  faceDetected : bool;
  gameStarted : bool
}.

Definition initialGestureState : GestureState := {|
  smileBuffer := [];
  nodBuffer := [];
  smileCooldown := 0;
  nodCooldown := 0;
  lastNoseY := None;
  frameCount := 0;
  faceDetected := false;
  gameStarted := false
|}.

(** Observable effects, in program order.  Status texts are the source's
    strings without their leading pictograph. *)
Inductive Event :=
| SetStatus (text : string)          (* setStatus(text) *)
| ConsoleLog (text : string)         (* console.log(text) *)
| ConsoleWarn (text : string)        (* console.warn(text, error) *)
| ConsoleError (text : string)       (* console.error(text, error) *)
| DispatchEvent (name : string)      (* window.dispatchEvent(new CustomEvent(name)) *)
| FaceMeshSend.                      (* faceMesh.send({image: videoEl}) *)

(** Result of a computation that may throw. *)
Inductive Outcome (A : Type) :=
| Ret (a : A)
| Throw (message : string).
Arguments Ret {A} a.
Arguments Throw {A} message.

(** [FACE_LANDMARKS] (source lines 55-66). *)
Module FACE_LANDMARKS.
Definition MOUTH_LEFT : nat := 61.
Definition MOUTH_RIGHT : nat := 291.
Definition MOUTH_TOP : nat := 13.
Definition MOUTH_BOTTOM : nat := 14.
Definition MOUTH_LEFT_CORNER : nat := 308.
Definition MOUTH_RIGHT_CORNER : nat := 78.
Definition NOSE_TIP : nat := 1.
Definition NOSE_BRIDGE : nat := 6.
End FACE_LANDMARKS.

(** [landmarks[i]]: reading a property of [undefined] throws a TypeError;
    an absent entry reads as [undefined] ([None]). *)
Definition landmarkAt (landmarks : Landmarks) (i : nat) : Outcome (option Landmark) :=
  match landmarks with
  | None => Throw "TypeError: Cannot read properties of undefined"
  | Some arr => Ret (mjoin (arr !! i))
  end.

(** ** Utility functions (source lines 69-80) *)

Definition distance (p1 p2 : option Landmark) : float :=
  match p1, p2 with
  | Some p1, Some p2 =>
      let dx := (x p1 - x p2)%float in
      let dy := (y p1 - y p2)%float in
      Js.Math_sqrt (dx * dx + dy * dy)%float
  | _, _ => 0%float
  end.

(** [buffer.reduce((sum, val) => sum + val, 0)]. *)
Definition reduce_sum (buffer : list float) : float :=
  fold_left (fun sum val => (sum + val)%float) buffer 0%float.

(** [smoothBuffer] mutates [buffer] in place and returns the average; the
    model returns the buffer after the call together with the result. *)
Definition smoothBuffer (buffer : list float) (newValue : float) (maxSize : nat)
  : list float * float :=
  let buffer := buffer ++ [newValue] in
  let buffer := if (maxSize <? length buffer)%nat then tail buffer else buffer in
  (buffer, (reduce_sum buffer / Js.of_length (length buffer))%float).

(** ** Smile classifier (source lines 83-122) *)

(** Lines 95-97: the mouth aspect ratio, guarded against a zero width. *)
Definition mouthAspectRatio (leftCorner rightCorner topLip bottomLip : Landmark) : float :=
  let mouthWidth := distance (Some leftCorner) (Some rightCorner) in
  let mouthHeight := distance (Some topLip) (Some bottomLip) in
  if (0 <? mouthWidth)%float then (mouthHeight / mouthWidth)%float else 0%float.

(** Lines 95-105: the combined smile score. *)
Definition smileScore (leftCorner rightCorner topLip bottomLip : Landmark) : float :=
  let aspectRatio := mouthAspectRatio leftCorner rightCorner topLip bottomLip in
  let mouthCenterY := ((y topLip + y bottomLip) / 2)%float in
  let avgCornerY := ((y leftCorner + y rightCorner) / 2)%float in
  let elevation := (mouthCenterY - avgCornerY)%float in
  (aspectRatio * 0.6 + Js.Math_max 0 (elevation * 100) * 0.4)%float.

(** The body of the [try] block: the pulse and the state it leaves, or the
    exception thrown.  The only operation that can throw, indexing
    [landmarks], comes before any mutation. *)
Definition detectGameSmile_try (landmarks : Landmarks) (st : GestureState)
  : Outcome (bool * GestureState) :=
  match landmarkAt landmarks FACE_LANDMARKS.MOUTH_LEFT,
        landmarkAt landmarks FACE_LANDMARKS.MOUTH_RIGHT,
        landmarkAt landmarks FACE_LANDMARKS.MOUTH_TOP,
        landmarkAt landmarks FACE_LANDMARKS.MOUTH_BOTTOM with
  | Ret leftCorner, Ret rightCorner, Ret topLip, Ret bottomLip =>
      match leftCorner, rightCorner, topLip, bottomLip with
      | Some leftCorner, Some rightCorner, Some topLip, Some bottomLip =>
          let score := smileScore leftCorner rightCorner topLip bottomLip in
          let '(buffer, smoothedScore) := smoothBuffer (smileBuffer st) score 4 in
          let st := {| smileBuffer := buffer;
                       nodBuffer := nodBuffer st;
                       smileCooldown := smileCooldown st;
                       nodCooldown := nodCooldown st;
                       lastNoseY := lastNoseY st;
                       frameCount := frameCount st;
                       faceDetected := faceDetected st;
                       gameStarted := gameStarted st |} in
          if (smileCooldown st <=? 0) && (0.28 <? smoothedScore)%float then
            Ret (true, {| smileBuffer := [];
                          nodBuffer := nodBuffer st;
                          smileCooldown := 120;
                          nodCooldown := nodCooldown st;
                          lastNoseY := lastNoseY st;
                          frameCount := frameCount st;
                          faceDetected := faceDetected st;
                          gameStarted := gameStarted st |})
          else Ret (false, st)
      | _, _, _, _ => Ret (false, st)
      end
  | Throw e, _, _, _ | _, Throw e, _, _ | _, _, Throw e, _ | _, _, _, Throw e => Throw e
  end.

(** [detectGameSmile]: the [catch] clause logs a warning and reports no
    pulse; nothing was mutated before the throw. *)
Definition detectGameSmile (landmarks : Landmarks) (st : GestureState)
  : bool * GestureState * list Event :=
  match detectGameSmile_try landmarks st with
  | Ret (pulse, st') => (pulse, st', [])
  | Throw _ => (false, st, [ConsoleWarn "Smile detection error:"])
  end.

(** ** Nod classifier (source lines 125-152) *)

Definition detectGameNod_try (landmarks : Landmarks) (st : GestureState)
  : Outcome (bool * GestureState) :=
  match landmarkAt landmarks FACE_LANDMARKS.NOSE_TIP with
  | Throw e => Throw e
  | Ret None => Ret (false, st)
  | Ret (Some noseTip) =>
      let currentNoseY := y noseTip in
      let setLastNoseY (st : GestureState) :=
        {| smileBuffer := smileBuffer st;
           nodBuffer := nodBuffer st;
           smileCooldown := smileCooldown st;
           nodCooldown := nodCooldown st;
           lastNoseY := Some currentNoseY;
           frameCount := frameCount st;
           faceDetected := faceDetected st;
           gameStarted := gameStarted st |} in
      match lastNoseY st with
      | Some last =>
          let deltaY := (currentNoseY - last)%float in
          let '(buffer, smoothedDelta) := smoothBuffer (nodBuffer st) deltaY 6 in
          let st := {| smileBuffer := smileBuffer st;
                       nodBuffer := buffer;
                       smileCooldown := smileCooldown st;
                       nodCooldown := nodCooldown st;
                       lastNoseY := lastNoseY st;
                       frameCount := frameCount st;
                       faceDetected := faceDetected st;
                       gameStarted := gameStarted st |} in
          if (nodCooldown st <=? 0) && (0.003 <? smoothedDelta)%float then
            Ret (true, {| smileBuffer := smileBuffer st;
                          nodBuffer := [];
                          smileCooldown := smileCooldown st;
                          nodCooldown := 45;
                          lastNoseY := lastNoseY st;
                          frameCount := frameCount st;
                          faceDetected := faceDetected st;
                          gameStarted := gameStarted st |})
          else Ret (false, setLastNoseY st)
      | None => Ret (false, setLastNoseY st)
      end
  end.

Definition detectGameNod (landmarks : Landmarks) (st : GestureState)
  : bool * GestureState * list Event :=
  match detectGameNod_try landmarks st with
  | Ret (pulse, st') => (pulse, st', [])
  | Throw _ => (false, st, [ConsoleWarn "Nod detection error:"])
  end.

(** ** Result handler (source lines 155-209) *)

Definition set_frameCount (n : Z) (st : GestureState) : GestureState :=
  {| smileBuffer := smileBuffer st; nodBuffer := nodBuffer st;
     smileCooldown := smileCooldown st; nodCooldown := nodCooldown st;
     lastNoseY := lastNoseY st; frameCount := n;
     faceDetected := faceDetected st; gameStarted := gameStarted st |}.

Definition set_faceDetected (b : bool) (st : GestureState) : GestureState :=
  {| smileBuffer := smileBuffer st; nodBuffer := nodBuffer st;
     smileCooldown := smileCooldown st; nodCooldown := nodCooldown st;
     lastNoseY := lastNoseY st; frameCount := frameCount st;
     faceDetected := b; gameStarted := gameStarted st |}.

Definition set_gameStarted (b : bool) (st : GestureState) : GestureState :=
  {| smileBuffer := smileBuffer st; nodBuffer := nodBuffer st;
     smileCooldown := smileCooldown st; nodCooldown := nodCooldown st;
     lastNoseY := lastNoseY st; frameCount := frameCount st;
     faceDetected := faceDetected st; gameStarted := b |}.

Definition set_cooldowns (smile nod : Z) (st : GestureState) : GestureState :=
  {| smileBuffer := smileBuffer st; nodBuffer := nodBuffer st;
     smileCooldown := smile; nodCooldown := nod;
     lastNoseY := lastNoseY st; frameCount := frameCount st;
     faceDetected := faceDetected st; gameStarted := gameStarted st |}.

(** Lines 162-169: the rising edge of face presence. *)
Definition faceAcquired (st : GestureState) : GestureState * list Event :=
  if negb (faceDetected st) then
    (set_faceDetected true st,
     [SetStatus (if negb (gameStarted st)
                 then "SMILE TO START GAME! (Nod to drop hook)"
                 else "Face detected - Game controls active")])
  else (st, []).

(** Lines 172-180. *)
Definition smileGesture (landmarks : Landmarks) (st : GestureState)
  : GestureState * list Event :=
  let '(pulse, st, evs) := detectGameSmile landmarks st in
  if pulse then
    let '(st, started) :=
      if negb (gameStarted st)
      then (set_gameStarted true st, [SetStatus "Game Started! Nod to drop hook"])
      else (st, []) in
    (st, evs ++ [ConsoleLog "Game Smile detected!"] ++ started
             ++ [DispatchEvent "face:smile"])
  else (st, evs).

(** Lines 182-188. *)
Definition nodGesture (landmarks : Landmarks) (st : GestureState)
  : GestureState * list Event :=
  let '(pulse, st, evs) := detectGameNod landmarks st in
  if pulse then
    (st, evs ++ [ConsoleLog "Game Nod detected!"]
             ++ (if gameStarted st then [DispatchEvent "face:nod"] else []))
  else (st, evs).

(** Lines 190-196.  [%] is the truncating remainder. *)
Definition periodicStatus (st : GestureState) : list Event :=
  if Z.rem (frameCount st) 150 =? 0 then
    [SetStatus ("Face tracking: " ++
                (if gameStarted st then "Playing - Nod to drop hook"
                 else "Smile to start game"))]
  else [].

(** Lines 198-204: the falling edge of face presence. *)
Definition faceLost (st : GestureState) : GestureState * list Event :=
  if faceDetected st then
    (set_faceDetected false st,
     [SetStatus "No face detected - Please look at camera"])
  else (st, []).

(** Lines 206-208. *)
Definition updateCooldowns (st : GestureState) : GestureState :=
  set_cooldowns
    (if 0 <? smileCooldown st then smileCooldown st - 1 else smileCooldown st)
    (if 0 <? nodCooldown st then nodCooldown st - 1 else nodCooldown st)
    st.

(** The callback registered with [faceMesh.onResults]. *)
Definition onResults (results : Results) (st : GestureState)
  : GestureState * list Event :=
  let st := set_frameCount (Js.incr (frameCount st)) st in
  let '(st, evs) :=
    match multiFaceLandmarks results with
    | Some (landmarks :: _) =>
        let '(st, evs1) := faceAcquired st in
        let '(st, evs2) := smileGesture landmarks st in
        let '(st, evs3) := nodGesture landmarks st in
        (st, evs1 ++ evs2 ++ evs3 ++ periodicStatus st)
    | _ => faceLost st
    end in
  (updateCooldowns st, evs).

(** The handler applied to a sequence of results, one per processed
    frame. *)
Definition stateAfter (st : GestureState) (frames : list Results) : GestureState :=
  fold_left (fun st results => fst (onResults results st)) frames st.

(** The state in which frame [i] (counted from 0) is processed. *)
Definition stateBefore (st : GestureState) (frames : list Results) (i : nat)
  : GestureState :=
  stateAfter st (take i frames).

(** The events of frame [i]; none when the sequence is shorter. *)
Definition eventsAt (st : GestureState) (frames : list Results) (i : nat)
  : list Event :=
  match frames !! i with
  | Some results => snd (onResults results (stateBefore st frames i))
  | None => []
  end.

Definition isEvent (e : Event) (e' : Event) : bool :=
  match e, e' with
  | SetStatus a, SetStatus b
  | ConsoleLog a, ConsoleLog b
  | ConsoleWarn a, ConsoleWarn b
  | ConsoleError a, ConsoleError b
  | DispatchEvent a, DispatchEvent b => String.eqb a b
  | FaceMeshSend, FaceMeshSend => true
  | _, _ => false
  end.

Definition occurs (e : Event) (evs : list Event) : bool := existsb (isEvent e) evs.

(** A classifier's pulse on a frame is observable as its log line. *)
Definition smilePulse (evs : list Event) : bool :=
  occurs (ConsoleLog "Game Smile detected!") evs.
Definition nodPulse (evs : list Event) : bool :=
  occurs (ConsoleLog "Game Nod detected!") evs.

(** ** Start-up (source lines 4-25, 212-248, 291-328) *)

(** How the camera behaves during start-up. *)
Inductive CameraOutcome :=
| CameraReady                            (* metadata loads and play() resolves *)
| PermissionRefused (message : string)   (* getUserMedia rejects *)
| PlayRejected (message : string)        (* videoEl.play() rejects *)
| VideoError                             (* videoEl.onerror fires *)
| SetupTimeout.                          (* the 10 s timer fires first *)

(** What the page offers when the script runs. *)
Record Host := {
  videoElFound : bool;          (* document.getElementById('faceCam') *)
  faceMeshLoaded : bool;        (* typeof FaceMesh !== 'undefined' *)
  faceMeshConstructs : bool;    (* new FaceMesh(..), setOptions, onResults do not throw *)
  camera : CameraOutcome
}.

(** [await navigator.mediaDevices.getUserMedia(..)], inside the [try]. *)
Definition getUserMedia (c : CameraOutcome) : Outcome unit :=
  match c with
  | PermissionRefused message => Throw message
  | _ => Ret tt
  end.

(** The promise built at lines 228-240, as it settles. *)
Definition metadataPromise (c : CameraOutcome) : Outcome unit * list Event :=
  match c with
  | CameraReady => (Ret tt, [SetStatus "Camera ready. Loading face detection..."])
  | PlayRejected message => (Throw message, [])
  | VideoError => (Throw "error", [])
  | SetupTimeout => (Throw "Camera setup timeout", [])
  | PermissionRefused message => (Throw message, [])
  end.

(** [setupGameCamera].  The [catch] clause covers the awaited
    [getUserMedia] call.  The promise of lines 228-240 is returned without
    [await], so its rejection settles the promise of [setupGameCamera]
    itself and does not pass through the [catch] clause. *)
Definition setupGameCamera (c : CameraOutcome) : Outcome unit * list Event :=
  let evs := [SetStatus "Requesting camera permission..."] in
  match getUserMedia c with
  | Throw message =>
      (Throw message,
       evs ++ [SetStatus ("Camera failed: " ++ message);
               ConsoleError "Camera setup failed:";
               DispatchEvent "face:fallback"])
  | Ret _ =>
      let '(r, evs') := metadataPromise c in (r, evs ++ evs')
  end.

(** The body of the async function [initGameFaceDetection]. *)
Definition initGameFaceDetection_body (h : Host) : Outcome unit * list Event :=
  if negb (videoElFound h) then
    (Ret tt, [ConsoleError "Video element #faceCam not found"])
  else if negb (faceMeshLoaded h) then
    (Ret tt, [SetStatus "MediaPipe not loaded. Enabling keyboard/mouse controls.";
              DispatchEvent "face:fallback"])
  else
    let evs := [SetStatus "Starting face detection for Gold Miner..."] in
    if negb (faceMeshConstructs h) then (Throw "FaceMesh", evs)
    else
      match setupGameCamera (camera h) with
      | (Ret _, evs') =>
          (Ret tt, evs ++ evs' ++
                   [SetStatus "Face detection ready for Gold Miner!";
                    ConsoleLog "Gold Miner face detection initialized successfully"])
      | (Throw _, evs') =>
          (Ret tt, evs ++ evs' ++
                   [ConsoleError "Face detection initialization failed:";
                    SetStatus "Face detection unavailable - Using fallback controls";
                    DispatchEvent "face:fallback"])
      end.

(** The whole start-up, with the [.catch] attached to the async function
    (lines 323-328; it writes the status text to the element directly). *)
Definition initGameFaceDetection (h : Host) : list Event :=
  match initGameFaceDetection_body h with
  | (Ret _, evs) => evs
  | (Throw _, evs) =>
      evs ++ [ConsoleError "Gold Miner face detection startup error:";
              SetStatus "Face detection failed - Using keyboard/mouse";
              DispatchEvent "face:fallback"]
  end.

Definition isFallback (e : Event) : bool := isEvent (DispatchEvent "face:fallback") e.

Definition fallbackCount (evs : list Event) : nat := length (List.filter isFallback evs).

(** ** Frame pacer (source lines 251-289) *)

(** The closure variables of [startGameFrameProcessing], with the two
    queues of the host that the loop lives in: the [processGameFrame]
    callbacks registered with [requestAnimationFrame] for the next
    display refresh, and the [faceMesh.send] promises not yet settled. *)
Record PacerState := {
  isProcessing : bool;
  frameSkipCounter : Z;
  scheduled : nat;
  inFlight : nat
}.

Record VideoElement := { videoWidth : Z; readyState : Z }.

(** [faceMesh.send(..)] either returns a promise or throws. *)
Inductive SendBehaviour := SendReturnsPromise | SendThrows.

Definition requestAnimationFrame (st : PacerState) : PacerState :=
  {| isProcessing := isProcessing st; frameSkipCounter := frameSkipCounter st;
     scheduled := S (scheduled st); inFlight := inFlight st |}.

Definition set_isProcessing (b : bool) (st : PacerState) : PacerState :=
  {| isProcessing := b; frameSkipCounter := frameSkipCounter st;
     scheduled := scheduled st; inFlight := inFlight st |}.

(** One run of the callback [processGameFrame] (lines 255-285). *)
Definition processGameFrame (video : VideoElement) (send : SendBehaviour)
    (st : PacerState) : PacerState * list Event :=
  let st := {| isProcessing := isProcessing st;
               frameSkipCounter := Js.incr (frameSkipCounter st);
               scheduled := scheduled st; inFlight := inFlight st |} in
  if negb (Z.rem (frameSkipCounter st) 2 =? 0) then (requestAnimationFrame st, [])
  else if isProcessing st || (videoWidth video =? 0) || (readyState video <? 2)
  then (requestAnimationFrame st, [])
  else
    let st := set_isProcessing true st in
    match send with
    | SendReturnsPromise =>
        ({| isProcessing := isProcessing st; frameSkipCounter := frameSkipCounter st;
            scheduled := scheduled st; inFlight := S (inFlight st) |},
         [FaceMeshSend])
    | SendThrows =>
        (requestAnimationFrame (set_isProcessing false st),
         [FaceMeshSend; ConsoleWarn "Frame send error:"])
    end.

(** The [.catch] and [.finally] handlers of lines 273-279, run when the
    promise of a submission settles. *)
Definition sendSettled (resolved : bool) (st : PacerState) : PacerState * list Event :=
  (requestAnimationFrame
     {| isProcessing := false; frameSkipCounter := frameSkipCounter st;
        scheduled := scheduled st; inFlight := pred (inFlight st) |},
   if resolved then [] else [ConsoleWarn "Frame processing error:"]).

(** What the host does between two runs of the script's code. *)
Inductive HostStep :=
| Refresh (video : VideoElement) (send : SendBehaviour)
    (* a display refresh: the callbacks registered for it run *)
| Settle (resolved : bool).
    (* the promise of the submission in flight resolves or rejects *)

Fixpoint runCallbacks (n : nat) (video : VideoElement) (send : SendBehaviour)
    (st : PacerState) : PacerState * list Event :=
  match n with
  | O => (st, [])
  | S n =>
      let '(st, evs) := processGameFrame video send st in
      let '(st, evs') := runCallbacks n video send st in
      (st, evs ++ evs')
  end.

Definition hostStep (h : HostStep) (st : PacerState) : PacerState * list Event :=
  match h with
  | Refresh video send =>
      runCallbacks (scheduled st) video send
        {| isProcessing := isProcessing st; frameSkipCounter := frameSkipCounter st;
           scheduled := 0; inFlight := inFlight st |}
  | Settle resolved =>
      match inFlight st with
      | O => (st, [])
      | S _ => sendSettled resolved st
      end
  end.

(** [startGameFrameProcessing]: fresh closure variables and the first
    callback registered. *)
Definition startGameFrameProcessing : PacerState :=
  {| isProcessing := false; frameSkipCounter := 0; scheduled := 1; inFlight := 0 |}.

Definition pacerAfter (st : PacerState) (steps : list HostStep) : PacerState :=
  fold_left (fun st h => fst (hostStep h st)) steps st.

Definition submissions (evs : list Event) : nat :=
  length (List.filter (isEvent FaceMeshSend) evs).

(** ** Derived notions used in the statements *)

(** The arithmetic mean of a window, as the specification words it: the
    sum of the values currently in the window over their number. *)
Definition arithmeticMean (window : list float) : float :=
  (fold_left (fun sum val => (sum + val)%float) window 0 / Js.of_length (length window))%float.

(** Pushing a sequence of values through the smoother, one
    [smoothBuffer] call each: the final window and the last value
    returned. *)
Definition smoothAll (capacity : nat) (buffer values : list float)
  : list float * option float :=
  fold_left (fun acc v =>
               let '(buffer, out) := smoothBuffer (fst acc) v capacity in
               (buffer, Some out))
            values (buffer, None).

(** The two classifiers, with the cooldown each one arms when it fires,
    its timer in the state, and its pulse as seen in a frame's events. *)
Inductive Classifier := Smile | Nod.

Definition cooldownDuration (c : Classifier) : nat :=
  match c with Smile => 120 | Nod => 45 end.

Definition cooldownOf (c : Classifier) (st : GestureState) : Z :=
  match c with Smile => smileCooldown st | Nod => nodCooldown st end.

Definition pulseOf (c : Classifier) (evs : list Event) : bool :=
  match c with Smile => smilePulse evs | Nod => nodPulse evs end.

(** Decrement of a timer at the end of a frame (lines 207-208). *)
Definition tick (c : Z) : Z := if 0 <? c then c - 1 else c.

(** Binary64 values that are a zero or NaN. *)
Definition zero_or_nan (f : spec_float) : bool :=
  match f with
  | S754_zero _ | S754_nan => true
  | _ => false
  end.

(** The nose tip of a result, when the result carries a face that has
    one. *)
Definition noseTipOf (results : Results) : option Landmark :=
  match multiFaceLandmarks results with
  | Some (Some arr :: _) => mjoin (arr !! FACE_LANDMARKS.NOSE_TIP)
  | _ => None
  end.

(** A result with a face. *)
Definition hasFace (results : Results) : bool :=
  match multiFaceLandmarks results with
  | Some (_ :: _) => true
  | _ => false
  end.

(** The text of the periodic status refresh for the current mode. *)
Definition trackingStatus (st : GestureState) : Event :=
  SetStatus ("Face tracking: " ++
             (if gameStarted st then "Playing - Nod to drop hook"
              else "Smile to start game")).

Definition isTrackingStatus (e : Event) : bool :=
  match e with
  | SetStatus text => String.prefix "Face tracking: " text
  | _ => false
  end.

(** ** Sample inputs *)

Definition landmark (a b : float) : Landmark := {| x := a; y := b |}.

(** A full array of 468 landmarks with the five the classifiers read put
    at their indices and every other landmark at the centre. *)
Definition faceArray (noseTip leftCorner rightCorner topLip bottomLip : Landmark)
  : list (option Landmark) :=
  map (fun i =>
         Some (if (i =? FACE_LANDMARKS.NOSE_TIP)%nat then noseTip
               else if (i =? FACE_LANDMARKS.MOUTH_LEFT)%nat then leftCorner
               else if (i =? FACE_LANDMARKS.MOUTH_RIGHT)%nat then rightCorner
               else if (i =? FACE_LANDMARKS.MOUTH_TOP)%nat then topLip
               else if (i =? FACE_LANDMARKS.MOUTH_BOTTOM)%nat then bottomLip
               else landmark 0.5 0.5))
      (seq 0 468).

Definition faceLandmarks (noseTip leftCorner rightCorner topLip bottomLip : Landmark)
  : Landmarks :=
  Some (faceArray noseTip leftCorner rightCorner topLip bottomLip).

Definition faceResults (landmarks : Landmarks) : Results :=
  {| multiFaceLandmarks := Some [landmarks] |}.

Definition noFace : Results := {| multiFaceLandmarks := None |}.

(** A face with a closed, level mouth and the nose tip at height [noseY]. *)
Definition neutralFace (noseY : float) : Results :=
  faceResults (faceLandmarks (landmark 0.5 noseY)
                 (landmark 0.4 0.6) (landmark 0.6 0.6)
                 (landmark 0.5 0.6) (landmark 0.5 0.6)).

(** A face with an open mouth (smile score about 1.04) and a still nose. *)
Definition smilingFace : Results :=
  faceResults (faceLandmarks (landmark 0.5 0.5)
                 (landmark 0.4 0.6) (landmark 0.6 0.6)
                 (landmark 0.5 0.58) (landmark 0.5 0.66)).

(** An open mouth with the nose tip at height 0.6. *)
Definition smilingNod : Landmarks :=
  faceLandmarks (landmark 0.5 0.6)
    (landmark 0.4 0.6) (landmark 0.6 0.6)
    (landmark 0.5 0.58) (landmark 0.5 0.66).

(** Frames in which the nose tip sinks by 0.005 per frame. *)
Definition sinkingNose (n : nat) : list Results :=
  map (fun k => neutralFace (Js.of_length k * 0.005)%float) (seq 0 n).

(** A face whose mouth corners coincide. *)
Definition pinchedMouth : list (option Landmark) :=
  faceArray (landmark 0.5 0.5)
    (landmark 0.5 0.6) (landmark 0.5 0.6)
    (landmark 0.5 0.58) (landmark 0.5 0.66).

(** A face array cut short before the right mouth corner (index 291). *)
Definition truncatedFace : Landmarks :=
  Some (repeat (Some (landmark 0.5 0.5)) 100).

Definition workingHost (c : CameraOutcome) : Host :=
  {| videoElFound := true; faceMeshLoaded := true; faceMeshConstructs := true;
     camera := c |}.

Definition readyVideo : VideoElement := {| videoWidth := 640; readyState := 4 |}.

(** The number of submissions made in each host step of a run. *)
Fixpoint submissionsPerStep (st : PacerState) (steps : list HostStep) : list nat :=
  match steps with
  | [] => []
  | h :: steps =>
      let '(st', evs) := hostStep h st in
      submissions evs :: submissionsPerStep st' steps
  end.

(** The loop is either waiting for the next display refresh or waiting
    for the one submission in flight. *)
Definition pacerWaiting (st : PacerState) : Prop :=
  (inFlight st = 0%nat /\ scheduled st = 1%nat /\ isProcessing st = false)
  \/ (inFlight st = 1%nat /\ scheduled st = 0%nat /\ isProcessing st = true).

(** The smoothing window of a classifier. *)
Definition windowOf (c : Classifier) (st : GestureState) : list float :=
  match c with Smile => smileBuffer st | Nod => nodBuffer st end.

(** The capacity the classifier passes to [smoothBuffer]. *)
Definition windowCapacity (c : Classifier) : nat :=
  match c with Smile => 4 | Nod => 6 end.

(** The number of display refreshes among the host steps of a run. *)
Definition refreshCount (steps : list HostStep) : nat :=
  length (List.filter (fun h => match h with Refresh _ _ => true | Settle _ => false end)
            steps).

(** ** The classifier calls of a frame *)

(** The state in which the handler calls [detectGameSmile] (line 172):
    the counter incremented and the presence flag raised. *)
Definition smileCallState (st : GestureState) : GestureState :=
  fst (faceAcquired (set_frameCount (Js.incr (frameCount st)) st)).

(** What [detectGameSmile] returns when the handler calls it on a frame
    with a face, and the state it leaves; a frame without a face does
    not call it. *)
Definition smileVerdict (results : Results) (st : GestureState) : bool * GestureState :=
  match multiFaceLandmarks results with
  | Some (landmarks :: _) => fst (detectGameSmile landmarks (smileCallState st))
  | _ => (false, st)
  end.

Definition smileFires (results : Results) (st : GestureState) : bool :=
  fst (smileVerdict results st).

(** The state in which the handler calls [detectGameNod] (line 182):
    after the smile of the frame has been handled. *)
Definition nodCallState (landmarks : Landmarks) (st : GestureState) : GestureState :=
  fst (smileGesture landmarks (smileCallState st)).

(** What [detectGameNod] returns when the handler calls it on a frame
    with a face, and the state it leaves; a frame without a face does
    not call it. *)
Definition nodVerdict (results : Results) (st : GestureState) : bool * GestureState :=
  match multiFaceLandmarks results with
  | Some (landmarks :: _) => fst (detectGameNod landmarks (nodCallState landmarks st))
  | _ => (false, st)
  end.

Definition nodFires (results : Results) (st : GestureState) : bool :=
  fst (nodVerdict results st).

(** ** The page (source lines 5-11, 330-369) *)

(** The page as far as the script looks at it: the ids of its elements,
    in document order, and whether [document.body] exists yet (it is
    [null] while a script placed before the body runs). *)
Record Document := { elements : list string; bodyParsed : bool }.

Definition getElementById (doc : Document) (id : string) : bool :=
  existsb (String.eqb id) (elements doc).

(** [ensureVideoElement] (lines 331-369).  The markup appended at the end
    of the body has the elements [camera-container], [faceCam] and
    [camStatus]; reading [insertAdjacentHTML] off a [null] body throws,
    after the log line and with nothing created. *)
Definition ensureVideoElement (doc : Document) : Outcome Document * list Event :=
  if getElementById doc "faceCam" then (Ret doc, [])
  else
    let evs := [ConsoleLog "Creating face camera element for Gold Miner"] in
    if bodyParsed doc then
      (Ret {| elements := elements doc ++ ["camera-container"; "faceCam"; "camStatus"];
              bodyParsed := true |},
       evs)
    else (Throw "TypeError: Cannot read properties of null", evs).

(** The whole script on a page.  The async function starts first and
    runs up to its first [await], so it looks [faceCam] up on the page
    as loaded; [ensureVideoElement] runs next.  When [ensureVideoElement]
    logs anything the look-up had failed and the async function had
    already returned, so its events all come first.  An exception of
    [ensureVideoElement] is not caught by the script. *)
Definition faceScript (doc : Document) (loaded constructs : bool) (c : CameraOutcome)
  : Outcome Document * list Event :=
  let evs := initGameFaceDetection
               {| videoElFound := getElementById doc "faceCam";
                  faceMeshLoaded := loaded;
                  faceMeshConstructs := constructs;
                  camera := c |} in
  let '(r, evs') := ensureVideoElement doc in
  (r, evs ++ evs').

(** * Properties *)

(** ** Signal smoother *)

Section Smoother.
Variable capacity : nat.

Lemma smoothBuffer_mean buffer v :
  snd (smoothBuffer buffer v capacity)
  = arithmeticMean (fst (smoothBuffer buffer v capacity)).
Proof. reflexivity. Qed.

(** One push on a window within capacity keeps the newest [capacity]
    values of the extended window. *)
Lemma smoothBuffer_window buffer v :
  (length buffer <= capacity)%nat ->
  fst (smoothBuffer buffer v capacity)
  = drop (length (buffer ++ [v]) - capacity) (buffer ++ [v]).
Proof.
  intros Hlen. unfold smoothBuffer. cbn [fst].
  rewrite length_app. cbn [length].
  destruct (Nat.ltb_spec capacity (length buffer + 1)) as [Hgt | Hle].
  - replace (length buffer + 1 - capacity)%nat with 1%nat by lia.
    destruct (buffer ++ [v]); reflexivity.
  - replace (length buffer + 1 - capacity)%nat with 0%nat by lia.
    reflexivity.
Qed.

Lemma smoothBuffer_length buffer v :
  (length buffer <= capacity)%nat ->
  (length (fst (smoothBuffer buffer v capacity)) <= capacity)%nat.
Proof.
  intros Hlen. rewrite smoothBuffer_window by done.
  rewrite length_drop, length_app. cbn [length]. lia.
Qed.

Lemma smoothAll_snoc buffer values v :
  smoothAll capacity buffer (values ++ [v])
  = let '(w, out) := smoothBuffer (fst (smoothAll capacity buffer values)) v capacity in
    (w, Some out).
Proof. unfold smoothAll. rewrite fold_left_app. reflexivity. Qed.

Lemma smoothAll_window buffer values :
  (length buffer <= capacity)%nat ->
  fst (smoothAll capacity buffer values)
  = drop (length (buffer ++ values) - capacity) (buffer ++ values).
Proof.
  intros Hlen. induction values as [| v values IH] using rev_ind.
  - rewrite app_nil_r. replace (length buffer - capacity)%nat with 0%nat by lia.
    reflexivity.
  - rewrite smoothAll_snoc.
    pose proof (smoothBuffer_window (fst (smoothAll capacity buffer values)) v) as Hw.
    destruct (smoothBuffer _ v capacity) as [w out]. cbn [fst] in *.
    rewrite Hw; clear Hw.
    + rewrite IH. rewrite app_assoc.
      set (W := buffer ++ values).
      rewrite length_app, length_drop. cbn [length].
      rewrite <- (drop_app_le W [v]) by lia.
      rewrite drop_drop. f_equal. rewrite length_app. cbn [length]. lia.
    + rewrite IH, length_drop. lia.
Qed.

Lemma smoothAll_output buffer values :
  values <> [] ->
  snd (smoothAll capacity buffer values)
  = Some (arithmeticMean (fst (smoothAll capacity buffer values))).
Proof.
  destruct values as [| v values _] using rev_ind; [done |]. intros _.
  rewrite smoothAll_snoc.
  pose proof (smoothBuffer_mean (fst (smoothAll capacity buffer values)) v) as Hm.
  destruct (smoothBuffer _ v capacity) as [w out]. cbn [fst snd] in *.
  by rewrite Hm.
Qed.
End Smoother.

(** C4.  For a capacity of at least 1 and a window that respects it (the
    empty window the classifiers start from, in particular), pushing more
    values than the capacity leaves exactly the last [capacity] values
    pushed, oldest first, and the value returned by the last push is the
    arithmetic mean of that window. *)
Theorem smoother_fifo (capacity : nat) (buffer values : list float) :
  (1 <= capacity)%nat ->
  (length buffer <= capacity)%nat ->
  (capacity < length values)%nat ->
  let window := drop (length values - capacity) values in
  smoothAll capacity buffer values = (window, Some (arithmeticMean window))
  /\ length window = capacity.
Proof.
  intros Hcap Hbuf Hlen window.
  pose proof (smoothAll_window capacity buffer values Hbuf) as Hw.
  pose proof (smoothAll_output capacity buffer values) as Ho.
  destruct (smoothAll capacity buffer values) as [w out]. cbn [fst snd] in *.
  assert (w = window) as ->.
  { rewrite Hw, length_app, drop_app_ge by lia. subst window. f_equal. lia. }
  split.
  - rewrite Ho; [reflexivity |]. intros ->. cbn in Hlen. lia.
  - subst window. rewrite length_drop. lia.
Qed.

Lemma smoother_fifo_witness :
  (1 <= 4)%nat /\ (length (@nil float) <= 4)%nat
  /\ (4 < length [1; 2; 3; 4; 5; 6]%float)%nat
  /\ smoothAll 4 [] [1; 2; 3; 4; 5; 6]%float = ([3; 4; 5; 6]%float, Some 4.5%float).
Proof.
  split; [lia | split; [cbn; lia | split; [cbn; lia |]]].
  destruct (smoother_fifo 4 [] [1; 2; 3; 4; 5; 6]%float) as [H _];
    [lia | cbn; lia | cbn; lia |].
  exact H.
Defined.

(** ** The classifiers, one call at a time *)

Lemma occurs_app e evs evs' : occurs e (evs ++ evs') = occurs e evs || occurs e evs'.
Proof. unfold occurs. apply existsb_app. Qed.

(** What one call of [detectGameSmile] may change: on a pulse the timer
    was at most 0 and is armed to 120 with the window cleared; otherwise
    the timer is untouched.  Nothing else but the window is written. *)
Lemma detectGameSmile_frame landmarks st :
  let '(pulse, st', evs) := detectGameSmile landmarks st in
  nodBuffer st' = nodBuffer st /\ nodCooldown st' = nodCooldown st /\
  lastNoseY st' = lastNoseY st /\ frameCount st' = frameCount st /\
  faceDetected st' = faceDetected st /\ gameStarted st' = gameStarted st /\
  (if pulse
   then smileCooldown st <= 0 /\ smileCooldown st' = 120 /\ smileBuffer st' = []
        /\ evs = []
   else smileCooldown st' = smileCooldown st
        /\ (evs = [] \/ evs = [ConsoleWarn "Smile detection error:"])).
Proof.
  unfold detectGameSmile, detectGameSmile_try.
  destruct (landmarkAt landmarks FACE_LANDMARKS.MOUTH_LEFT) as [[l |] | e1];
    destruct (landmarkAt landmarks FACE_LANDMARKS.MOUTH_RIGHT) as [[r |] | e2];
    destruct (landmarkAt landmarks FACE_LANDMARKS.MOUTH_TOP) as [[t |] | e3];
    destruct (landmarkAt landmarks FACE_LANDMARKS.MOUTH_BOTTOM) as [[b |] | e4];
    try (cbn; tauto).
  destruct (smoothBuffer (smileBuffer st) (smileScore l r t b) 4) as [buffer smoothed].
  cbn [smileCooldown].
  destruct (Z.leb_spec (smileCooldown st) 0) as [Hc | Hc];
    destruct (0.28 <? smoothed)%float; cbn; tauto.
Qed.

Lemma detectGameNod_frame landmarks st :
  let '(pulse, st', evs) := detectGameNod landmarks st in
  smileBuffer st' = smileBuffer st /\ smileCooldown st' = smileCooldown st /\
  frameCount st' = frameCount st /\
  faceDetected st' = faceDetected st /\ gameStarted st' = gameStarted st /\
  (if pulse
   then nodCooldown st <= 0 /\ nodCooldown st' = 45 /\ nodBuffer st' = []
        /\ evs = []
   else nodCooldown st' = nodCooldown st
        /\ (evs = [] \/ evs = [ConsoleWarn "Nod detection error:"])).
Proof.
  unfold detectGameNod, detectGameNod_try.
  destruct (landmarkAt landmarks FACE_LANDMARKS.NOSE_TIP) as [[noseTip |] | e];
    try (cbn; tauto).
  destruct (lastNoseY st) as [last |]; [| cbn; tauto].
  destruct (smoothBuffer (nodBuffer st) (y noseTip - last)%float 6) as [buffer smoothed].
  cbn [nodCooldown].
  destruct (Z.leb_spec (nodCooldown st) 0) as [Hc | Hc];
    destruct (0.003 <? smoothed)%float; cbn; tauto.
Qed.

(** The baseline after one call of [detectGameNod]: written with the
    current nose height when the call reports no pulse, and left as it
    was when the call fires (the [return true] of line 142 comes before
    the assignment of line 146) or finds no nose tip. *)
Lemma detectGameNod_lastNoseY landmarks st :
  let '(pulse, st', _) := detectGameNod landmarks st in
  match landmarkAt landmarks FACE_LANDMARKS.NOSE_TIP with
  | Ret (Some noseTip) =>
      if pulse then lastNoseY st' = lastNoseY st /\ lastNoseY st <> None
      else lastNoseY st' = Some (y noseTip)
  | _ => pulse = false /\ lastNoseY st' = lastNoseY st
  end.
Proof.
  unfold detectGameNod, detectGameNod_try.
  destruct (landmarkAt landmarks FACE_LANDMARKS.NOSE_TIP) as [[noseTip |] | e];
    try (cbn; tauto).
  destruct (lastNoseY st) as [last |] eqn:Hlast; [| cbn; tauto].
  destruct (smoothBuffer (nodBuffer st) (y noseTip - last)%float 6) as [buffer smoothed].
  destruct (_ && _); cbn; rewrite ?Hlast; done.
Qed.

(** The value the nod classifier smooths is the difference between the
    current nose height and the stored baseline. *)
Lemma detectGameNod_delta arr st noseTip last :
  mjoin (arr !! FACE_LANDMARKS.NOSE_TIP) = Some noseTip ->
  lastNoseY st = Some last ->
  let deltaY := (y noseTip - last)%float in
  let '(buffer, smoothedDelta) := smoothBuffer (nodBuffer st) deltaY 6 in
  let fires := (nodCooldown st <=? 0) && (0.003 <? smoothedDelta)%float in
  fst (fst (detectGameNod (Some arr) st)) = fires
  /\ nodBuffer (snd (fst (detectGameNod (Some arr) st)))
     = if fires then [] else buffer.
Proof.
  intros Hnose Hlast. unfold detectGameNod, detectGameNod_try, landmarkAt.
  rewrite Hnose, Hlast.
  destruct (smoothBuffer (nodBuffer st) (y noseTip - last)%float 6) as [buffer smoothed].
  cbn [nodCooldown]. destruct (_ && _); cbn; done.
Qed.

(** ** The result handler, one frame at a time *)

(** A frame without a face: only the counter, the presence flag and the
    two timers change, and the only possible event is the face-lost
    status on the falling edge. *)
Lemma onResults_noFace results st :
  hasFace results = false ->
  onResults results st =
    (updateCooldowns
       (set_faceDetected false (set_frameCount (Js.incr (frameCount st)) st)),
     if faceDetected st
     then [SetStatus "No face detected - Please look at camera"] else []).
Proof.
  unfold hasFace, onResults, faceLost. intros Hface.
  destruct (multiFaceLandmarks results) as [[| lm rest] |]; try discriminate;
    destruct st as [sb nb sc nc ln fc [|] gs]; reflexivity.
Qed.

(** A frame with a face, laid out in program order. *)
Lemma onResults_face results landmarks rest st :
  multiFaceLandmarks results = Some (landmarks :: rest) ->
  let st1 := set_faceDetected true (set_frameCount (Js.incr (frameCount st)) st) in
  let '(p1, s1, w1) := detectGameSmile landmarks st1 in
  let '(p2, s2, w2) := detectGameNod landmarks (set_gameStarted (gameStarted s1 || p1) s1) in
  onResults results st =
    (updateCooldowns s2,
     (if faceDetected st then []
      else [SetStatus (if gameStarted st
                       then "Face detected - Game controls active"
                       else "SMILE TO START GAME! (Nod to drop hook)")])
     ++ (w1 ++ if p1
               then [ConsoleLog "Game Smile detected!"]
                    ++ (if gameStarted st then []
                        else [SetStatus "Game Started! Nod to drop hook"])
                    ++ [DispatchEvent "face:smile"]
               else [])
     ++ (w2 ++ if p2
               then [ConsoleLog "Game Nod detected!"]
                    ++ (if gameStarted s2 then [DispatchEvent "face:nod"] else [])
               else [])
     ++ periodicStatus s2).
Proof.
  intros Hface st1.
  assert (fst (faceAcquired (set_frameCount (Js.incr (frameCount st)) st)) = st1
          /\ gameStarted st1 = gameStarted st) as [Hst1 Hgs1].
  { subst st1. destruct st as [sb nb sc nc ln fc [|] gs]; done. }
  assert (snd (faceAcquired (set_frameCount (Js.incr (frameCount st)) st))
          = if faceDetected st then []
            else [SetStatus (if gameStarted st
                             then "Face detected - Game controls active"
                             else "SMILE TO START GAME! (Nod to drop hook)")]) as Hev1.
  { destruct st as [sb nb sc nc ln fc [|] [|]]; done. }
  unfold onResults. rewrite Hface.
  destruct (faceAcquired _) as [st1' evs1]. cbn [fst snd] in Hst1, Hev1. subst st1' evs1.
  unfold smileGesture.
  pose proof (detectGameSmile_frame landmarks st1) as Hs.
  destruct (detectGameSmile landmarks st1) as [[p1 s1] w1].
  destruct Hs as (_ & _ & _ & _ & _ & Hgs & _). rewrite Hgs1 in Hgs.
  assert (set_gameStarted (gameStarted s1 || false) s1 = s1) as Hid.
  { destruct s1; cbn. by rewrite orb_false_r. }
  assert (set_gameStarted (gameStarted s1 || true) s1 = set_gameStarted true s1) as Hset.
  { by rewrite orb_true_r. }
  unfold nodGesture.
  destruct p1.
  - rewrite Hset. rewrite Hgs.
    destruct (gameStarted st); cbn [negb].
    + assert (set_gameStarted true s1 = s1) as ->.
      { destruct s1; cbn in *; by subst. }
      destruct (detectGameNod landmarks s1) as [[p2 s2] w2].
      destruct p2; rewrite ?app_nil_r; reflexivity.
    + destruct (detectGameNod landmarks (set_gameStarted true s1)) as [[p2 s2] w2].
      destruct p2; rewrite ?app_nil_r; reflexivity.
  - rewrite Hid.
    destruct (detectGameNod landmarks s1) as [[p2 s2] w2].
    destruct p2; rewrite ?app_nil_r; reflexivity.
Qed.

(** Splits a statement about [onResults results st] into the frame
    without a face and the frame with one; in the latter the two
    classifier calls are named and their frame conditions put in the
    context. *)
Ltac frame_cases results st :=
  let Hface := fresh "Hface" in
  destruct (hasFace results) eqn:Hface;
  [ let lm := fresh "landmarks" in
    let rest := fresh "rest" in
    let Hm := fresh "Hm" in
    let Heq := fresh "Heq" in
    let Hs := fresh "Hsmile" in
    let Hn := fresh "Hnod" in
    let Hl := fresh "Hbaseline" in
    unfold hasFace in Hface;
    destruct (multiFaceLandmarks results) as [[| lm rest] |] eqn:Hm;
    try discriminate Hface;
    pose proof (onResults_face results lm rest st Hm) as Heq;
    cbv zeta in Heq;
    pose proof (detectGameSmile_frame lm
                  (set_faceDetected true
                     (set_frameCount (Js.incr (frameCount st)) st))) as Hs;
    destruct (detectGameSmile lm _) as [[?p1 ?s1] ?w1];
    pose proof (detectGameNod_frame lm
                  (set_gameStarted (gameStarted s1 || p1) s1)) as Hn;
    pose proof (detectGameNod_lastNoseY lm
                  (set_gameStarted (gameStarted s1 || p1) s1)) as Hl;
    destruct (detectGameNod lm _) as [[?p2 ?s2] ?w2];
    rewrite Heq; clear Heq
  | rewrite (onResults_noFace results st Hface) ].

Lemma tick_clamped c : 0 <= c -> tick c = Z.max 0 (c - 1).
Proof. unfold tick. destruct (Z.ltb_spec 0 c); lia. Qed.

(** Case analysis on the warnings of the two classifier calls and on the
    conditions that select a frame's events, after which the event list
    is a literal. *)
Ltac event_cases st s2 :=
  repeat match goal with
         | H : _ /\ _ |- _ => destruct H
         end;
  repeat match goal with
         | H : ?w = [] \/ ?w = [_] |- _ => destruct H
         end;
  subst;
  destruct (faceDetected st) eqn:?, (gameStarted st) eqn:?,
           (gameStarted s2) eqn:?, (Z.rem (frameCount s2) 150 =? 0) eqn:?.

Ltac close_timer :=
  cbn; unfold tick;
  repeat match goal with
         | H : @eq Z _ _ |- _ => rewrite H; clear H
         end;
  first [done | split; [lia | done]].

(** The smile timer over one frame: a pulse needs a timer that has run
    out and leaves 119 (armed to 120, then decremented at the end of the
    same frame); without a pulse the timer is decremented, stopping at 0. *)
Lemma onResults_smileCooldown results st :
  let '(st', evs) := onResults results st in
  if smilePulse evs
  then smileCooldown st <= 0 /\ smileCooldown st' = 119
  else smileCooldown st' = tick (smileCooldown st).
Proof.
  frame_cases results st.
  - cbn in Hsmile, Hnod.
    destruct Hsmile as (_ & _ & _ & _ & _ & _ & Hs).
    destruct Hnod as (_ & Hsc & _ & _ & _ & Hn).
    unfold smilePulse, periodicStatus.
    cbn [smileCooldown updateCooldowns set_cooldowns]. rewrite Hsc. clear Hsc.
    destruct p1, p2; event_cases st s2; close_timer.
  - destruct st as [sb nb sc nc ln fc [|] gs]; reflexivity.
Qed.

Lemma onResults_nodCooldown results st :
  let '(st', evs) := onResults results st in
  if nodPulse evs
  then nodCooldown st <= 0 /\ nodCooldown st' = 44
  else nodCooldown st' = tick (nodCooldown st).
Proof.
  frame_cases results st.
  - cbn in Hsmile, Hnod.
    destruct Hsmile as (_ & Hnc & _ & _ & _ & _ & Hs).
    destruct Hnod as (_ & _ & _ & _ & _ & Hn).
    unfold nodPulse, periodicStatus.
    cbn [nodCooldown updateCooldowns set_cooldowns].
    destruct p1, p2; rewrite Hnc in Hn; event_cases st s2; close_timer.
  - destruct st as [sb nb sc nc ln fc [|] gs]; reflexivity.
Qed.

(** ** Cooldown gating over a sequence of frames *)

Lemma onResults_cooldown (c : Classifier) results st :
  let '(st', evs) := onResults results st in
  if pulseOf c evs
  then cooldownOf c st <= 0
       /\ cooldownOf c st' = Z.of_nat (cooldownDuration c) - 1
  else cooldownOf c st' = tick (cooldownOf c st).
Proof.
  destruct c; cbn [pulseOf cooldownOf cooldownDuration].
  - apply onResults_smileCooldown.
  - apply onResults_nodCooldown.
Qed.

Lemma stateBefore_0 st frames : stateBefore st frames 0 = st.
Proof. reflexivity. Qed.

Lemma stateBefore_S st frames i results :
  frames !! i = Some results ->
  stateBefore st frames (S i) = fst (onResults results (stateBefore st frames i)).
Proof.
  intros Hi. unfold stateBefore, stateAfter.
  rewrite (take_S_r _ _ _ Hi), fold_left_app. reflexivity.
Qed.

Lemma eventsAt_pulse_frame c st frames i :
  pulseOf c (eventsAt st frames i) = true -> is_Some (frames !! i).
Proof.
  unfold eventsAt. destruct (frames !! i); [eauto |].
  destruct c; discriminate.
Qed.

(** A timer never goes below 0 once it is not below 0. *)
Lemma onResults_cooldown_nonneg c results st :
  0 <= cooldownOf c st -> 0 <= cooldownOf c (fst (onResults results st)).
Proof.
  intros Hc. pose proof (onResults_cooldown c results st) as H.
  destruct (onResults results st) as [st' evs]. cbn [fst].
  destruct (pulseOf c evs).
  - destruct H as [_ ->]. destruct c; cbn; lia.
  - rewrite H. unfold tick. destruct (Z.ltb_spec 0 (cooldownOf c st)); lia.
Qed.

(** After a pulse on frame [i], the timer read at the start of frame
    [i + d] stands at [duration - d], for every [d] from 1 up to the
    duration and as far as the sequence goes. *)
Lemma cooldown_after_pulse c st frames i d :
  pulseOf c (eventsAt st frames i) = true ->
  (1 <= d <= cooldownDuration c)%nat ->
  (i + d <= length frames)%nat ->
  cooldownOf c (stateBefore st frames (i + d))
  = Z.of_nat (cooldownDuration c) - Z.of_nat d.
Proof.
  intros Hpulse. induction d as [| d IH]; [lia |]. intros Hd Hlen.
  destruct (decide (d = 0%nat)) as [-> | Hd0].
  - destruct (eventsAt_pulse_frame c st frames i Hpulse) as [results Hi].
    replace (i + 1)%nat with (S i) by lia.
    rewrite (stateBefore_S _ _ _ _ Hi).
    unfold eventsAt in Hpulse. rewrite Hi in Hpulse.
    pose proof (onResults_cooldown c results (stateBefore st frames i)) as H.
    destruct (onResults results (stateBefore st frames i)) as [st' evs].
    cbn [fst snd] in *. rewrite Hpulse in H. destruct H as [_ ->]. lia.
  - destruct (lookup_lt_is_Some_2 frames (i + d)) as [results Hi]; [lia |].
    replace (i + S d)%nat with (S (i + d)) by lia.
    rewrite (stateBefore_S _ _ _ _ Hi).
    pose proof (onResults_cooldown c results (stateBefore st frames (i + d))) as H.
    destruct (onResults results (stateBefore st frames (i + d))) as [st' evs].
    cbn [fst]. rewrite IH in H by lia.
    destruct (pulseOf c evs).
    + lia.
    + rewrite H. unfold tick.
      destruct (Z.ltb_spec 0 (Z.of_nat (cooldownDuration c) - Z.of_nat d)); lia.
Qed.

(** C3.  Once a classifier has fired on a frame, it does not fire on any
    of the following frames until its cooldown (120 frames for the smile,
    45 for the nod) has been counted down, one per processed frame and
    whatever the frames contain: on the frames in between the timer is
    still above 0, so a second pulse comes no earlier than
    [cooldownDuration] frames after the first. *)
Theorem cooldown_gating (c : Classifier) st frames i j :
  pulseOf c (eventsAt st frames i) = true ->
  (i < j < i + cooldownDuration c)%nat ->
  pulseOf c (eventsAt st frames j) = false
  /\ ((j <= length frames)%nat ->
      cooldownOf c (stateBefore st frames j)
      = Z.of_nat (cooldownDuration c) - Z.of_nat (j - i)).
Proof.
  intros Hpulse Hj.
  pose proof (cooldown_after_pulse c st frames i (j - i) Hpulse) as Hc.
  replace (i + (j - i))%nat with j in Hc by lia.
  split; [| intros Hlen; apply Hc; lia].
  destruct (pulseOf c (eventsAt st frames j)) eqn:Hpulse'; [| done].
  destruct (eventsAt_pulse_frame c st frames j Hpulse') as [results Hjth].
  pose proof (lookup_lt_Some _ _ _ Hjth) as Hlen.
  unfold eventsAt in Hpulse'. rewrite Hjth in Hpulse'.
  pose proof (onResults_cooldown c results (stateBefore st frames j)) as H.
  destruct (onResults results (stateBefore st frames j)) as [st' evs].
  cbn [snd] in Hpulse'. rewrite Hpulse' in H. lia.
Qed.

Lemma cooldown_gating_witness :
  pulseOf Smile (eventsAt initialGestureState (repeat smilingFace 125) 0) = true
  /\ (0 < 119 < 0 + cooldownDuration Smile)%nat
  /\ pulseOf Smile (eventsAt initialGestureState (repeat smilingFace 125) 119) = false
  /\ cooldownOf Smile (stateBefore initialGestureState (repeat smilingFace 125) 119) = 1.
Proof.
  split; [vm_compute; reflexivity | split; [cbn; lia |]].
  destruct (cooldown_gating Smile initialGestureState (repeat smilingFace 125) 0 119)
    as [Hquiet Htimer]; [vm_compute; reflexivity | cbn; lia |].
  split; [exact Hquiet |].
  rewrite Htimer; [reflexivity | rewrite repeat_length; lia].
Defined.

(** With the smile held on every frame the pulses fall exactly 120 frames
    apart. *)
Example smile_held_pulses :
  List.filter (fun i => smilePulse (eventsAt initialGestureState (repeat smilingFace 250) i))
         (seq 0 250)
  = [0; 120; 240]%nat.
Proof. vm_compute. reflexivity. Qed.

(** A steadily sinking nose fires the nod 45 frames apart; the game has
    not started, so no [face:nod] event is dispatched. *)
Example nose_sinking_pulses :
  let frames := sinkingNose 100 in
  List.filter (fun i => nodPulse (eventsAt initialGestureState frames i)) (seq 0 100)
  = [1; 46; 91]%nat
  /\ List.filter (fun i => occurs (DispatchEvent "face:nod")
                            (eventsAt initialGestureState frames i))
                 (seq 0 100)
     = [].
Proof. vm_compute. done. Qed.

(** ** Which events a frame emits *)

(** The started-flag the nod event is gated on is read after the smile
    of the same frame has been handled: it is the flag of the previous
    frame, raised by a smile pulse of this one. *)
Lemma onResults_gameStarted results st :
  let '(st', evs) := onResults results st in
  gameStarted st' = gameStarted st || smilePulse evs.
Proof.
  frame_cases results st.
  - clear Hbaseline. cbn in Hsmile, Hnod.
    destruct Hsmile as (_ & _ & _ & _ & _ & Hgs & Hs).
    destruct Hnod as (_ & _ & _ & _ & Hgs2 & Hn).
    unfold smilePulse, periodicStatus. cbn [gameStarted updateCooldowns set_cooldowns].
    rewrite Hgs2, Hgs. clear Hgs2 Hgs.
    destruct p1, p2; event_cases st s2; cbn; done.
  - destruct st as [sb nb sc nc ln fc [|] [|]]; reflexivity.
Qed.

(** The [face:nod] event against the log line of the nod branch. *)
Lemma onResults_nod_event_log results st :
  let '(st', evs) := onResults results st in
  occurs (DispatchEvent "face:nod") evs = nodPulse evs && gameStarted st'
  /\ (if nodPulse evs then nodCooldown st' = 44 else nodCooldown st' = tick (nodCooldown st)).
Proof.
  pose proof (onResults_nodCooldown results st) as Hcool.
  destruct (onResults results st) as [st' evs] eqn:Hstep.
  split; [| destruct (nodPulse evs); tauto]. clear Hcool.
  revert Hstep. frame_cases results st.
  - clear Hbaseline. cbn in Hsmile, Hnod.
    destruct Hsmile as (_ & _ & _ & _ & _ & _ & Hs).
    destruct Hnod as (_ & _ & _ & _ & _ & Hn).
    intros [= <- <-]. unfold nodPulse, periodicStatus.
    cbn [gameStarted updateCooldowns set_cooldowns].
    destruct p1, p2; event_cases st s2; cbn; done.
  - intros [= <- <-]. destruct st as [sb nb sc nc ln fc [|] [|]]; reflexivity.
Qed.

(** With a face in the frame, a counter that is a multiple of 150 brings
    the periodic status refresh for the current mode. *)
Lemma onResults_tracking_status results st :
  hasFace results = true ->
  let '(st', evs) := onResults results st in
  occurs (trackingStatus st') evs = (Z.rem (frameCount st') 150 =? 0).
Proof.
  intros Hhas. frame_cases results st; [| congruence].
  clear Hbaseline. cbn in Hsmile, Hnod.
  destruct Hsmile as (_ & _ & _ & _ & _ & _ & Hs).
  destruct Hnod as (_ & _ & _ & _ & _ & Hn).
  unfold trackingStatus, periodicStatus.
  cbn [gameStarted frameCount updateCooldowns set_cooldowns].
  destruct p1, p2; event_cases st s2; cbn; done.
Qed.

(** Without a face no periodic status refresh is emitted, whatever the
    counter. *)
Lemma onResults_noFace_no_tracking_status results st :
  hasFace results = false ->
  List.filter isTrackingStatus (snd (onResults results st)) = [].
Proof.
  intros Hhas. rewrite (onResults_noFace results st Hhas).
  destruct (faceDetected st); reflexivity.
Qed.

Lemma onResults_frameCount results st :
  frameCount (fst (onResults results st)) = Js.incr (frameCount st).
Proof.
  pose proof (onResults_face results) as Hf.
  destruct (hasFace results) eqn:Hhas.
  - unfold hasFace in Hhas.
    destruct (multiFaceLandmarks results) as [[| lm rest] |] eqn:Hm; try discriminate.
    specialize (Hf lm rest st eq_refl). cbv zeta in Hf.
    pose proof (detectGameSmile_frame lm
                  (set_faceDetected true
                     (set_frameCount (Js.incr (frameCount st)) st))) as Hs.
    destruct (detectGameSmile lm _) as [[p1 s1] w1].
    pose proof (detectGameNod_frame lm
                  (set_gameStarted (gameStarted s1 || p1) s1)) as Hn.
    destruct (detectGameNod lm _) as [[p2 s2] w2].
    rewrite Hf. cbn in *.
    destruct Hs as (_ & _ & _ & Hfc & _). destruct Hn as (_ & _ & Hfc2 & _).
    congruence.
  - rewrite (onResults_noFace results st Hhas). reflexivity.
Qed.

(** C5, as the code has it.  On every processed frame that carries a
    face and whose frame counter is a multiple of 150, the periodic
    status refresh describing the current mode is emitted. *)
Theorem periodic_status_with_face results st :
  hasFace results = true ->
  Z.rem (frameCount (fst (onResults results st))) 150 = 0 ->
  occurs (trackingStatus (fst (onResults results st)))
         (snd (onResults results st)) = true.
Proof.
  intros Hhas Hrem.
  pose proof (onResults_tracking_status results st Hhas) as H.
  destruct (onResults results st) as [st' evs]. cbn [fst snd] in *.
  rewrite H. by apply Z.eqb_eq.
Qed.

Lemma periodic_status_with_face_witness :
  hasFace smilingFace = true
  /\ Z.rem (frameCount (fst (onResults smilingFace
              (stateAfter initialGestureState (repeat noFace 149))))) 150 = 0
  /\ occurs (SetStatus "Face tracking: Playing - Nod to drop hook")
       (snd (onResults smilingFace
               (stateAfter initialGestureState (repeat noFace 149)))) = true.
Proof.
  split; [reflexivity | split; [vm_compute; reflexivity |]].
  apply (periodic_status_with_face smilingFace
           (stateAfter initialGestureState (repeat noFace 149)));
    [reflexivity | vm_compute; reflexivity].
Defined.

(** C5, as stated, fails: after 149 frames without a face the 150th,
    also without a face, brings the counter to 150 and emits nothing. *)
Lemma periodic_status_missing_without_face :
  frameCount (fst (onResults noFace
                     (stateAfter initialGestureState (repeat noFace 149)))) = 150
  /\ Z.rem 150 150 = 0
  /\ faceDetected (fst (onResults noFace
                     (stateAfter initialGestureState (repeat noFace 149)))) = false
  /\ snd (onResults noFace
            (stateAfter initialGestureState (repeat noFace 149))) = [].
Proof. vm_compute. done. Qed.

(** ** The events of a frame against the classifier calls *)

Lemma smileCallState_eq st :
  smileCallState st
  = set_faceDetected true (set_frameCount (Js.incr (frameCount st)) st).
Proof. unfold smileCallState. destruct st as [sb nb sc nc ln fc [|] gs]; reflexivity. Qed.

Lemma smileGesture_state landmarks st :
  fst (smileGesture landmarks st)
  = set_gameStarted
      (gameStarted (snd (fst (detectGameSmile landmarks st)))
       || fst (fst (detectGameSmile landmarks st)))
      (snd (fst (detectGameSmile landmarks st))).
Proof.
  unfold smileGesture.
  destruct (detectGameSmile landmarks st) as [[pulse st'] evs]. cbn [fst snd].
  destruct pulse.
  - rewrite orb_true_r. destruct st' as [sb nb sc nc ln fc fd [|]]; reflexivity.
  - rewrite orb_false_r. destruct st'; reflexivity.
Qed.

(** The log line of each gesture branch appears on exactly the frames on
    which the handler's call of the classifier returns [true], and the
    state the nod classifier leaves is the state of the frame, up to the
    decrement of the timers. *)
Lemma pulses_are_verdicts results st :
  smilePulse (snd (onResults results st)) = smileFires results st
  /\ nodPulse (snd (onResults results st)) = nodFires results st
  /\ nodBuffer (fst (onResults results st)) = nodBuffer (snd (nodVerdict results st))
  /\ lastNoseY (fst (onResults results st)) = lastNoseY (snd (nodVerdict results st))
  /\ nodCooldown (fst (onResults results st))
     = tick (nodCooldown (snd (nodVerdict results st))).
Proof.
  unfold smileFires, nodFires, smileVerdict, nodVerdict, nodCallState.
  destruct (multiFaceLandmarks results) as [[| lm rest] |] eqn:Hm.
  1, 3: rewrite (onResults_noFace results st) by (unfold hasFace; by rewrite Hm);
        destruct (faceDetected st); done.
  pose proof (onResults_face results lm rest st Hm) as Heq. cbv zeta in Heq.
  rewrite smileGesture_state, smileCallState_eq.
  pose proof (detectGameSmile_frame lm
                (set_faceDetected true
                   (set_frameCount (Js.incr (frameCount st)) st))) as Hsmile.
  destruct (detectGameSmile lm _) as [[p1 s1] w1]. cbn [fst snd].
  pose proof (detectGameNod_frame lm
                (set_gameStarted (gameStarted s1 || p1) s1)) as Hnod.
  destruct (detectGameNod lm _) as [[p2 s2] w2]. cbn [fst snd].
  rewrite Heq. clear Heq. cbn in Hsmile, Hnod.
  destruct Hsmile as (_ & _ & _ & _ & _ & _ & Hs).
  destruct Hnod as (_ & _ & _ & _ & _ & Hn).
  unfold smilePulse, nodPulse, periodicStatus.
  cbn [fst snd nodBuffer lastNoseY nodCooldown updateCooldowns set_cooldowns].
  destruct p1, p2; event_cases st s2; cbn; done.
Qed.

(** C6.  On every processed frame the [face:nod] event is dispatched
    exactly when the handler's call of the nod classifier returns [true]
    on that frame and the game has started.  The classifier's work is
    kept either way: the window and the baseline of the frame are those
    the classifier leaves, and a pulse arms the nod cooldown (44 left at
    the end of the frame) also when the game has not started and no
    event is dispatched. *)
Theorem nod_event_iff_pulse_and_started results st :
  occurs (DispatchEvent "face:nod") (snd (onResults results st))
  = nodFires results st && gameStarted (fst (onResults results st))
  /\ nodCooldown (fst (onResults results st))
     = (if nodFires results st then 44 else tick (nodCooldown st))
  /\ nodBuffer (fst (onResults results st)) = nodBuffer (snd (nodVerdict results st))
  /\ lastNoseY (fst (onResults results st)) = lastNoseY (snd (nodVerdict results st)).
Proof.
  pose proof (pulses_are_verdicts results st) as (_ & Hfires & Hbuffer & Hbase & _).
  pose proof (onResults_nod_event_log results st) as Hlog.
  destruct (onResults results st) as [st' evs]. cbn [fst snd] in *.
  destruct Hlog as [Hevent Htimer]. rewrite Hfires in Hevent, Htimer.
  repeat split; try done.
  by destruct (nodFires results st).
Qed.

Lemma nod_event_iff_pulse_and_started_witness :
  (* before the game has started: the nod fires, arms its cooldown and
     is not surfaced *)
  gameStarted (stateAfter initialGestureState [neutralFace 0.5]) = false
  /\ nodFires (neutralFace 0.6) (stateAfter initialGestureState [neutralFace 0.5]) = true
  /\ occurs (DispatchEvent "face:nod")
        (snd (onResults (neutralFace 0.6)
                (stateAfter initialGestureState [neutralFace 0.5]))) = false
  /\ nodCooldown (fst (onResults (neutralFace 0.6)
                         (stateAfter initialGestureState [neutralFace 0.5]))) = 44
  (* after a smile has started it: the nod fires and is dispatched *)
  /\ gameStarted (stateAfter initialGestureState [smilingFace]) = true
  /\ nodFires (neutralFace 0.6) (stateAfter initialGestureState [smilingFace]) = true
  /\ occurs (DispatchEvent "face:nod")
        (snd (onResults (neutralFace 0.6)
                (stateAfter initialGestureState [smilingFace]))) = true.
Proof.
  destruct (nod_event_iff_pulse_and_started (neutralFace 0.6)
              (stateAfter initialGestureState [neutralFace 0.5]))
    as (Hquiet & Harmed & _).
  destruct (nod_event_iff_pulse_and_started (neutralFace 0.6)
              (stateAfter initialGestureState [smilingFace]))
    as (Hsurfaced & _).
  split; [vm_compute; reflexivity |].
  split; [vm_compute; reflexivity |].
  split; [rewrite Hquiet; vm_compute; reflexivity |].
  split; [rewrite Harmed; vm_compute; reflexivity |].
  split; [vm_compute; reflexivity |].
  split; [vm_compute; reflexivity |].
  rewrite Hsurfaced. vm_compute. reflexivity.
Defined.

(** ** The smile classifier on degenerate landmark sets *)

(** Binary64 arithmetic on zeros and NaN, from the specification of the
    primitive operations. *)

Lemma SF64sub_eqb a b :
  SFeqb a b = true -> zero_or_nan (SF64sub a b) = true.
Proof.
  unfold SFeqb, SF64sub.
  destruct a as [sa | sa | | sa ma ea], b as [sb | sb | | sb mb eb];
    cbn [SFcompare]; try discriminate;
    try (destruct sa, sb; cbn; done).
  assert (forall m1 m2 e1 e2 s, (e1 ?= e2) = Eq -> Pos.compare_cont Eq m1 m2 = Eq ->
            zero_or_nan (SFsub prec emax (S754_finite s m1 e1) (S754_finite s m2 e2))
            = true) as Hfin.
  { intros m1 m2 e1 e2 s He Hm.
    apply Z.compare_eq in He. apply Pos.compare_eq in Hm. subst e2 m2.
    cbn [SFsub]. cbv zeta. rewrite Z.min_id. unfold shl_align.
    rewrite !Z.sub_diag. reflexivity. }
  destruct sa, sb; try discriminate;
    destruct (ea ?= eb) eqn:He; try discriminate;
    destruct (Pos.compare_cont Eq ma mb) eqn:Hm; try discriminate;
    intros _; by apply Hfin.
Qed.

Lemma SF64mul_zero_or_nan a b :
  zero_or_nan a = true -> zero_or_nan b = true -> zero_or_nan (SF64mul a b) = true.
Proof. destruct a, b; try discriminate; reflexivity. Qed.

Lemma SF64add_zero_or_nan a b :
  zero_or_nan a = true -> zero_or_nan b = true -> zero_or_nan (SF64add a b) = true.
Proof.
  destruct a as [sa | | |], b as [sb | | |]; try discriminate; try reflexivity.
  destruct sa, sb; reflexivity.
Qed.

Lemma SF64sqrt_zero_or_nan a :
  zero_or_nan a = true -> zero_or_nan (SF64sqrt a) = true.
Proof. destruct a; try discriminate; reflexivity. Qed.

Lemma ltb_zero_or_nan w :
  zero_or_nan (Prim2SF w) = true -> (0 <? w)%float = false.
Proof.
  rewrite FloatAxioms.ltb_spec. change (Prim2SF 0) with (S754_zero false).
  destruct (Prim2SF w); try discriminate; reflexivity.
Qed.

(** The distance between two landmarks whose coordinates compare equal is
    not above 0: it is a zero, or NaN when a coordinate is infinite. *)
Lemma distance_coincide p1 p2 :
  (x p1 =? x p2)%float = true -> (y p1 =? y p2)%float = true ->
  (0 <? distance (Some p1) (Some p2))%float = false.
Proof.
  rewrite !FloatAxioms.eqb_spec. intros Hx Hy.
  apply ltb_zero_or_nan. unfold distance, Js.Math_sqrt.
  rewrite sqrt_spec, add_spec, !mul_spec, !sub_spec.
  apply SF64sqrt_zero_or_nan, SF64add_zero_or_nan;
    apply SF64mul_zero_or_nan; by apply SF64sub_eqb.
Qed.

(** A mouth width that is 0 gives the aspect ratio 0. *)
Lemma mouthAspectRatio_width_zero l r t b :
  (distance (Some l) (Some r) =? 0)%float = true ->
  mouthAspectRatio l r t b = 0%float.
Proof.
  unfold mouthAspectRatio. rewrite FloatAxioms.eqb_spec, FloatAxioms.ltb_spec.
  change (Prim2SF 0) with (S754_zero false).
  destruct (Prim2SF (distance (Some l) (Some r))) as [s | s | | s m e];
    try destruct s; intros H; try discriminate H; reflexivity.
Qed.

(** C8.  When the left and the right mouth corner coincide, the aspect
    ratio computed by the smile classifier is the number 0 (so not NaN),
    and the body of the classifier returns without throwing. *)
Theorem aspectRatio_zero_when_corners_coincide arr st l r t b :
  mjoin (arr !! FACE_LANDMARKS.MOUTH_LEFT) = Some l ->
  mjoin (arr !! FACE_LANDMARKS.MOUTH_RIGHT) = Some r ->
  mjoin (arr !! FACE_LANDMARKS.MOUTH_TOP) = Some t ->
  mjoin (arr !! FACE_LANDMARKS.MOUTH_BOTTOM) = Some b ->
  (x l =? x r)%float = true -> (y l =? y r)%float = true ->
  mouthAspectRatio l r t b = 0%float
  /\ exists pulse st', detectGameSmile_try (Some arr) st = Ret (pulse, st').
Proof.
  intros Hl Hr Ht Hb Hx Hy. split.
  - unfold mouthAspectRatio. by rewrite distance_coincide.
  - unfold detectGameSmile_try, landmarkAt. rewrite Hl, Hr, Ht, Hb.
    destruct (smoothBuffer _ _ _) as [buffer smoothed].
    destruct (_ && _); eauto.
Qed.

Lemma aspectRatio_zero_when_corners_coincide_witness :
  mjoin (pinchedMouth !! FACE_LANDMARKS.MOUTH_LEFT) = Some (landmark 0.5 0.6)
  /\ mjoin (pinchedMouth !! FACE_LANDMARKS.MOUTH_RIGHT) = Some (landmark 0.5 0.6)
  /\ mouthAspectRatio (landmark 0.5 0.6) (landmark 0.5 0.6)
                      (landmark 0.5 0.58) (landmark 0.5 0.66) = 0%float
  /\ exists pulse st',
       detectGameSmile_try (Some pinchedMouth) initialGestureState = Ret (pulse, st').
Proof.
  split; [vm_compute; reflexivity | split; [vm_compute; reflexivity |]].
  apply (aspectRatio_zero_when_corners_coincide pinchedMouth initialGestureState
           (landmark 0.5 0.6) (landmark 0.5 0.6)
           (landmark 0.5 0.58) (landmark 0.5 0.66));
    vm_compute; reflexivity.
Defined.

(** C9.  When any of the four mouth landmarks is missing from the
    landmark set, the smile classifier reports no pulse and returns the
    state as it received it: cooldown timer and score window included. *)
Theorem detectGameSmile_missing_mouth_landmark landmarks st i :
  i = FACE_LANDMARKS.MOUTH_LEFT \/ i = FACE_LANDMARKS.MOUTH_RIGHT
  \/ i = FACE_LANDMARKS.MOUTH_TOP \/ i = FACE_LANDMARKS.MOUTH_BOTTOM ->
  landmarkAt landmarks i = Ret None ->
  detectGameSmile landmarks st = (false, st, []).
Proof.
  intros Hi Hmissing.
  destruct landmarks as [arr |]; [| discriminate].
  unfold detectGameSmile, detectGameSmile_try.
  destruct Hi as [-> | [-> | [-> | ->]]]; rewrite ?Hmissing;
    repeat match goal with
           | |- context [landmarkAt (Some arr) ?j] =>
               let H := fresh in
               destruct (landmarkAt (Some arr) j) as [[?|]|?] eqn:H;
               try discriminate H
           end;
    reflexivity.
Qed.

Lemma detectGameSmile_missing_mouth_landmark_witness :
  landmarkAt truncatedFace FACE_LANDMARKS.MOUTH_RIGHT = Ret None
  /\ detectGameSmile truncatedFace initialGestureState
     = (false, initialGestureState, []).
Proof.
  split; [vm_compute; reflexivity |].
  apply (detectGameSmile_missing_mouth_landmark truncatedFace initialGestureState
           FACE_LANDMARKS.MOUTH_RIGHT); [tauto | vm_compute; reflexivity].
Defined.

(** ** The nod baseline *)

(** The stored nose height over one frame.  A frame whose face has a nose
    tip writes the current height unless the nod fires on it, in which
    case the baseline stays as it was; any other frame leaves the
    baseline alone. *)
Lemma onResults_lastNoseY results st :
  let '(st', evs) := onResults results st in
  match noseTipOf results with
  | Some noseTip =>
      if nodPulse evs
      then lastNoseY st' = lastNoseY st /\ lastNoseY st <> None
      else lastNoseY st' = Some (y noseTip)
  | None => nodPulse evs = false /\ lastNoseY st' = lastNoseY st
  end.
Proof.
  frame_cases results st.
  - unfold noseTipOf. rewrite Hm. cbn in Hsmile, Hnod, Hbaseline.
    destruct Hsmile as (_ & _ & Hln & _ & _ & _ & Hs).
    destruct Hnod as (_ & _ & _ & _ & _ & Hn).
    unfold nodPulse, periodicStatus. cbn [lastNoseY updateCooldowns set_cooldowns].
    rewrite Hln in Hbaseline. clear Hln.
    destruct landmarks as [arr |]; cbn [landmarkAt] in Hbaseline;
      [destruct (mjoin (arr !! FACE_LANDMARKS.NOSE_TIP)) as [noseTip |] |];
      destruct p1, p2; event_cases st s2; cbn; done.
  - unfold noseTipOf, hasFace in *.
    destruct (multiFaceLandmarks results) as [[| lm rest] |]; try discriminate;
      destruct st as [sb nb sc nc ln fc [|] gs]; done.
Qed.

(** Once recorded the baseline is never cleared. *)
Lemma onResults_lastNoseY_kept results st :
  lastNoseY st <> None -> lastNoseY (fst (onResults results st)) <> None.
Proof.
  intros Hrec. pose proof (onResults_lastNoseY results st) as H.
  destruct (onResults results st) as [st' evs]. cbn [fst].
  destruct (noseTipOf results) as [noseTip |].
  - destruct (nodPulse evs); [destruct H as [-> _]; done | by rewrite H].
  - destruct H as [_ ->]. done.
Qed.

Lemma stateAfter_snoc st frames results :
  stateAfter st (frames ++ [results])
  = fst (onResults results (stateAfter st frames)).
Proof. unfold stateAfter. by rewrite fold_left_app. Qed.

(** From the initial state the baseline is [null] exactly as long as no
    frame has brought a nose tip. *)
Lemma lastNoseY_null_iff frames :
  lastNoseY (stateAfter initialGestureState frames) = None
  <-> Forall (fun results => noseTipOf results = None) frames.
Proof.
  induction frames as [| results frames IH] using rev_ind.
  - split; [constructor | reflexivity].
  - rewrite stateAfter_snoc, Forall_app, Forall_singleton, <- IH.
    pose proof (onResults_lastNoseY results (stateAfter initialGestureState frames)) as H.
    destruct (onResults results _) as [st' evs]. cbn [fst].
    destruct (noseTipOf results) as [noseTip |].
    + destruct (nodPulse evs).
      * destruct H as [-> Hrec]. split; [done | intros [? [=]]].
      * rewrite H. split; [done | intros [? [=]]].
    + destruct H as [_ ->]. tauto.
Qed.

(** Frames without a face leave the baseline and the nod window alone
    and only count the nod timer down. *)
Lemma stateAfter_noFace st gap :
  Forall (fun results => hasFace results = false) gap ->
  lastNoseY (stateAfter st gap) = lastNoseY st
  /\ nodBuffer (stateAfter st gap) = nodBuffer st
  /\ nodCooldown (stateAfter st gap) = Nat.iter (length gap) tick (nodCooldown st).
Proof.
  induction gap as [| results gap IH] using rev_ind; [done |].
  rewrite Forall_app, Forall_singleton. intros [Hgap Hlost].
  destruct (IH Hgap) as (Hl & Hb & Hc).
  rewrite stateAfter_snoc, (onResults_noFace _ _ Hlost), length_app, Nat.add_comm.
  cbn. by rewrite Hl, Hb, Hc.
Qed.

(** A frame with a nose tip processed on a recorded baseline: the nod
    fires exactly when the timer has run out and the smoothed difference
    to that baseline is above the threshold. *)
Lemma onResults_nod_delta results st noseTip last :
  noseTipOf results = Some noseTip ->
  lastNoseY st = Some last ->
  nodPulse (snd (onResults results st))
  = (nodCooldown st <=? 0)
    && (0.003 <? snd (smoothBuffer (nodBuffer st) (y noseTip - last)%float 6))%float.
Proof.
  intros Hnose Hlast. unfold noseTipOf in Hnose.
  destruct (multiFaceLandmarks results) as [[| [arr |] rest] |] eqn:Hm;
    try discriminate.
  pose proof (onResults_face results (Some arr) rest st Hm) as Heq. cbv zeta in Heq.
  pose proof (detectGameSmile_frame (Some arr)
                (set_faceDetected true
                   (set_frameCount (Js.incr (frameCount st)) st))) as Hs.
  destruct (detectGameSmile (Some arr) _) as [[p1 s1] w1].
  cbn in Hs. destruct Hs as (Hnb & Hnc & Hln & _ & _ & _ & Hs).
  pose proof (detectGameNod_delta arr (set_gameStarted (gameStarted s1 || p1) s1)
                noseTip last Hnose) as Hd.
  pose proof (detectGameNod_frame (Some arr)
                (set_gameStarted (gameStarted s1 || p1) s1)) as Hn.
  cbn [lastNoseY nodBuffer nodCooldown set_gameStarted] in Hd.
  rewrite Hln, Hnb, Hnc in Hd. specialize (Hd Hlast). cbv zeta in Hd.
  destruct (smoothBuffer (nodBuffer st) (y noseTip - last)%float 6) as [buffer smoothed].
  destruct (detectGameNod (Some arr) _) as [[p2 s2] w2].
  cbn [fst snd] in Hd. destruct Hd as [Hp2 _]. rewrite Heq. cbn [snd].
  rewrite <- Hp2. clear Hp2. destruct Hn as (_ & _ & _ & _ & _ & Hn).
  unfold nodPulse, periodicStatus.
  destruct p1, p2; event_cases st s2; cbn; done.
Qed.

(** C10.  The stored nose height is [null] only until the first frame
    that brings a nose tip, and frames without a face do not clear it:
    the first frame after the face is back measures its nose height
    against the height recorded before the face was lost, and fires the
    nod when the timer has run out and that smoothed difference is above
    the threshold. *)
Theorem lastNoseY_survives_face_loss frames st gap results noseTip last :
  lastNoseY st = Some last ->
  Forall (fun lost => hasFace lost = false) gap ->
  noseTipOf results = Some noseTip ->
  (lastNoseY (stateAfter initialGestureState frames) = None
   <-> Forall (fun seen => noseTipOf seen = None) frames)
  /\ lastNoseY (stateAfter st gap) = Some last
  /\ nodPulse (snd (onResults results (stateAfter st gap)))
     = (nodCooldown (stateAfter st gap) <=? 0)
       && (0.003 <? snd (smoothBuffer (nodBuffer st) (y noseTip - last)%float 6))%float.
Proof.
  intros Hlast Hgap Hnose.
  destruct (stateAfter_noFace st gap Hgap) as (Hl & Hb & _).
  split; [apply lastNoseY_null_iff |].
  split; [by rewrite Hl |].
  rewrite (onResults_nod_delta results (stateAfter st gap) noseTip last Hnose)
    by (by rewrite Hl).
  by rewrite Hb.
Qed.

Lemma lastNoseY_survives_face_loss_witness :
  lastNoseY (stateAfter initialGestureState [neutralFace 0.5]) = Some 0.5%float
  /\ Forall (fun lost => hasFace lost = false) [noFace; noFace; noFace]
  /\ noseTipOf (neutralFace 0.6) = Some (landmark 0.5 0.6)
  /\ lastNoseY (stateAfter (stateAfter initialGestureState [neutralFace 0.5])
                  [noFace; noFace; noFace]) = Some 0.5%float
  /\ nodPulse (snd (onResults (neutralFace 0.6)
                      (stateAfter (stateAfter initialGestureState [neutralFace 0.5])
                         [noFace; noFace; noFace]))) = true.
Proof.
  assert (Forall (fun lost => hasFace lost = false) [noFace; noFace; noFace]) as Hgap.
  { repeat constructor. }
  destruct (lastNoseY_survives_face_loss []
              (stateAfter initialGestureState [neutralFace 0.5])
              [noFace; noFace; noFace] (neutralFace 0.6) (landmark 0.5 0.6) 0.5%float)
    as (_ & Hkept & Hfires);
    [vm_compute; reflexivity | exact Hgap | vm_compute; reflexivity |].
  split; [vm_compute; reflexivity |].
  split; [exact Hgap |].
  split; [vm_compute; reflexivity |].
  split; [exact Hkept |].
  rewrite Hfires. vm_compute. reflexivity.
Defined.

(** C1 fails on a pulse.  With the baseline 0.5 recorded by a first frame,
    a second frame with the nose tip at 0.6 fires the nod, and the stored
    nose height is still 0.5 afterwards: in [detectGameNod] the
    [return true] of the pulse comes before [lastNoseY = currentNoseY]. *)
Theorem nod_pulse_leaves_lastNoseY_stale :
  lastNoseY (stateAfter initialGestureState [neutralFace 0.5]) = Some 0.5%float
  /\ noseTipOf (neutralFace 0.6) = Some (landmark 0.5 0.6)
  /\ fst (fst (detectGameNod
                 (faceLandmarks (landmark 0.5 0.6) (landmark 0.4 0.6) (landmark 0.6 0.6)
                    (landmark 0.5 0.6) (landmark 0.5 0.6))
                 (stateAfter initialGestureState [neutralFace 0.5]))) = true
  /\ lastNoseY (snd (fst (detectGameNod
                 (faceLandmarks (landmark 0.5 0.6) (landmark 0.4 0.6) (landmark 0.6 0.6)
                    (landmark 0.5 0.6) (landmark 0.5 0.6))
                 (stateAfter initialGestureState [neutralFace 0.5])))) = Some 0.5%float
  /\ nodPulse (snd (onResults (neutralFace 0.6)
                      (stateAfter initialGestureState [neutralFace 0.5]))) = true
  /\ lastNoseY (fst (onResults (neutralFace 0.6)
                       (stateAfter initialGestureState [neutralFace 0.5])))
     = Some 0.5%float.
Proof. vm_compute. done. Qed.

(** X25.  On a frame with a nose tip on which the nod does not fire, the
    baseline stored afterwards is the nose height of that frame. *)
Lemma lastNoseY_updated_without_pulse results st noseTip :
  noseTipOf results = Some noseTip ->
  nodPulse (snd (onResults results st)) = false ->
  lastNoseY (fst (onResults results st)) = Some (y noseTip).
Proof.
  intros Hnose Hquiet. pose proof (onResults_lastNoseY results st) as H.
  destruct (onResults results st) as [st' evs]. cbn [fst snd] in *.
  by rewrite Hnose, Hquiet in H.
Qed.

Lemma lastNoseY_updated_without_pulse_witness :
  noseTipOf (neutralFace 0.501) = Some (landmark 0.5 0.501)
  /\ nodPulse (snd (onResults (neutralFace 0.501)
                      (stateAfter initialGestureState [neutralFace 0.5]))) = false
  /\ lastNoseY (fst (onResults (neutralFace 0.501)
                       (stateAfter initialGestureState [neutralFace 0.5])))
     = Some 0.501%float.
Proof.
  split; [vm_compute; reflexivity | split; [vm_compute; reflexivity |]].
  apply (lastNoseY_updated_without_pulse (neutralFace 0.501)
           (stateAfter initialGestureState [neutralFace 0.5])
           (landmark 0.5 0.501));
    vm_compute; reflexivity.
Defined.

(** ** Start-up failures and the fallback event *)

Lemma capability_absent_one_fallback c constructs :
  fallbackCount (initGameFaceDetection
                   {| videoElFound := true; faceMeshLoaded := false;
                      faceMeshConstructs := constructs; camera := c |}) = 1%nat.
Proof. reflexivity. Qed.

(** Without a detection capability nothing is ever submitted to it. *)
Lemma capability_absent_no_submission c constructs :
  submissions (initGameFaceDetection
                 {| videoElFound := true; faceMeshLoaded := false;
                    faceMeshConstructs := constructs; camera := c |}) = 0%nat.
Proof. reflexivity. Qed.

Lemma setup_timeout_one_fallback :
  fallbackCount (initGameFaceDetection (workingHost SetupTimeout)) = 1%nat.
Proof. reflexivity. Qed.

Lemma camera_ready_no_fallback :
  fallbackCount (initGameFaceDetection (workingHost CameraReady)) = 0%nat.
Proof. reflexivity. Qed.

Lemma fallback_at_most_twice h :
  (fallbackCount (initGameFaceDetection h) <= 2)%nat.
Proof.
  destruct h as [[|] [|] [|] []]; cbn; lia.
Qed.

(** C2 fails when the camera permission is refused.  The rejection of
    [getUserMedia] is caught in [setupGameCamera], which dispatches
    [face:fallback] and rethrows; the [catch] around the call in
    [initGameFaceDetection] then dispatches it a second time. *)
Theorem permission_refused_two_fallbacks message :
  fallbackCount (initGameFaceDetection (workingHost (PermissionRefused message)))
  = 2%nat.
Proof. reflexivity. Qed.

(** ** Frame pacer *)

Lemma processGameFrame_waiting video send st :
  inFlight st = 0%nat -> scheduled st = 0%nat -> isProcessing st = false ->
  let '(st', evs) := processGameFrame video send st in
  pacerWaiting st' /\ (submissions evs <= 1)%nat.
Proof.
  destruct st as [processing counter sched flying]. cbn. intros -> -> ->.
  unfold processGameFrame, pacerWaiting. cbn [frameSkipCounter isProcessing].
  destruct (negb _); [cbn; lia |].
  destruct (_ || _); [cbn; lia |].
  destruct send; cbn; lia.
Qed.

Lemma hostStep_waiting h st :
  pacerWaiting st ->
  let '(st', evs) := hostStep h st in
  pacerWaiting st' /\ (inFlight st + submissions evs <= 1)%nat.
Proof.
  destruct st as [processing counter sched flying].
  intros [(Hf & Hs & Hp) | (Hf & Hs & Hp)]; cbn in Hf, Hs, Hp; subst.
  - destruct h as [video send | resolved].
    + cbn [hostStep scheduled runCallbacks isProcessing frameSkipCounter inFlight].
      pose proof (processGameFrame_waiting video send
                    {| isProcessing := false; frameSkipCounter := counter;
                       scheduled := 0; inFlight := 0 |} eq_refl eq_refl eq_refl) as H.
      destruct (processGameFrame video send _) as [st' evs].
      rewrite app_nil_r. cbn [inFlight]. destruct H. split; [done | lia].
    + cbn. unfold pacerWaiting. cbn. split; [left; done | lia].
  - destruct h as [video send | [|]]; cbn; unfold pacerWaiting; cbn;
      (split; [first [left; done | right; done] | lia]).
Qed.

Lemma pacerAfter_snoc st steps h :
  pacerAfter st (steps ++ [h]) = fst (hostStep h (pacerAfter st steps)).
Proof. unfold pacerAfter. by rewrite fold_left_app. Qed.

Lemma pacerAfter_waiting steps :
  pacerWaiting (pacerAfter startGameFrameProcessing steps).
Proof.
  induction steps as [| h steps IH] using rev_ind.
  - left. done.
  - rewrite pacerAfter_snoc.
    pose proof (hostStep_waiting h _ IH) as H.
    destruct (hostStep h _) as [st' evs]. by destruct H.
Qed.

(** C7.  Whatever the host does (display refreshes, with the video ready
    or not, and settlements of the pending submission, in any order and
    however late), the submissions in flight and the submissions made by
    the next step never add up to more than one: nothing is submitted
    while a submission is in flight. *)
Theorem pacer_no_overlap steps h :
  (inFlight (pacerAfter startGameFrameProcessing steps)
   + submissions (snd (hostStep h (pacerAfter startGameFrameProcessing steps)))
   <= 1)%nat.
Proof.
  pose proof (hostStep_waiting h _ (pacerAfter_waiting steps)) as H.
  destruct (hostStep h _) as [st' evs]. by destruct H.
Qed.

(** A submission that stays in flight over five display refreshes: the
    second submission comes only after the first has settled. *)
Example pacer_delayed_completion :
  submissionsPerStep startGameFrameProcessing
    [Refresh readyVideo SendReturnsPromise; Refresh readyVideo SendReturnsPromise;
     Refresh readyVideo SendReturnsPromise; Refresh readyVideo SendReturnsPromise;
     Refresh readyVideo SendReturnsPromise; Refresh readyVideo SendReturnsPromise;
     Refresh readyVideo SendReturnsPromise; Settle false;
     Refresh readyVideo SendReturnsPromise; Refresh readyVideo SendReturnsPromise]
  = [0; 1; 0; 0; 0; 0; 0; 0; 0; 1]%nat.
Proof. reflexivity. Qed.

(** * Further properties of the code *)

(** ** Events of one frame *)

(** The [face:smile] event against the log line of the smile branch. *)
Lemma onResults_smile_event_log results st :
  occurs (DispatchEvent "face:smile") (snd (onResults results st))
  = smilePulse (snd (onResults results st)).
Proof.
  frame_cases results st.
  - clear Hbaseline. cbn in Hsmile, Hnod.
    destruct Hsmile as (_ & _ & _ & _ & _ & _ & Hs).
    destruct Hnod as (_ & _ & _ & _ & _ & Hn).
    unfold smilePulse, periodicStatus. cbn [snd].
    destruct p1, p2; event_cases st s2; cbn; done.
  - destruct (faceDetected st); reflexivity.
Qed.

(** The "Game Started!" status against the log line of the smile
    branch. *)
Lemma onResults_started_status_log results st :
  occurs (SetStatus "Game Started! Nod to drop hook") (snd (onResults results st))
  = smilePulse (snd (onResults results st)) && negb (gameStarted st).
Proof.
  frame_cases results st.
  - clear Hbaseline. cbn in Hsmile, Hnod.
    destruct Hsmile as (_ & _ & _ & _ & _ & _ & Hs).
    destruct Hnod as (_ & _ & _ & _ & _ & Hn).
    unfold smilePulse, periodicStatus. cbn [snd].
    destruct p1, p2; event_cases st s2; cbn; done.
  - destruct (faceDetected st); reflexivity.
Qed.

(** The [face:nod] event against the two log lines and the started-flag
    the frame starts with. *)
Lemma onResults_nod_event_start_log results st :
  occurs (DispatchEvent "face:nod") (snd (onResults results st))
  = nodPulse (snd (onResults results st))
    && (gameStarted st || smilePulse (snd (onResults results st))).
Proof.
  frame_cases results st.
  - clear Hbaseline. cbn in Hsmile, Hnod.
    destruct Hsmile as (_ & _ & _ & _ & _ & Hgs & Hs).
    destruct Hnod as (_ & _ & _ & _ & Hgs2 & Hn).
    unfold smilePulse, nodPulse, periodicStatus. cbn [snd].
    rewrite Hgs in Hgs2. clear Hgs.
    destruct p1, p2; event_cases st s2; cbn in *; congruence.
  - destruct (faceDetected st), (gameStarted st); reflexivity.
Qed.

(** X1.  The [face:smile] event is dispatched on exactly the frames on
    which the handler's call of the smile classifier returns [true],
    before and after the game has started. *)
Theorem smile_event_iff_pulse results st :
  occurs (DispatchEvent "face:smile") (snd (onResults results st))
  = smileFires results st.
Proof.
  pose proof (pulses_are_verdicts results st) as (<- & _).
  apply onResults_smile_event_log.
Qed.

Lemma smile_event_iff_pulse_witness :
  smileFires smilingFace initialGestureState = true
  /\ occurs (DispatchEvent "face:smile")
        (snd (onResults smilingFace initialGestureState)) = true
  /\ smileFires smilingFace (stateAfter initialGestureState [smilingFace]) = false
  /\ occurs (DispatchEvent "face:smile")
        (snd (onResults smilingFace
                (stateAfter initialGestureState [smilingFace]))) = false.
Proof.
  rewrite (smile_event_iff_pulse smilingFace initialGestureState).
  rewrite (smile_event_iff_pulse smilingFace
             (stateAfter initialGestureState [smilingFace])).
  vm_compute. done.
Defined.

(** X2.  The status "Game Started! Nod to drop hook" is shown on exactly
    the frames on which the smile classifier returns [true] while the
    game has not started: later smiles dispatch the event without the
    status. *)
Theorem game_started_status_iff_first_smile results st :
  occurs (SetStatus "Game Started! Nod to drop hook") (snd (onResults results st))
  = smileFires results st && negb (gameStarted st).
Proof.
  pose proof (pulses_are_verdicts results st) as (<- & _).
  apply onResults_started_status_log.
Qed.

Lemma game_started_status_iff_first_smile_witness :
  smileFires smilingFace initialGestureState = true
  /\ occurs (SetStatus "Game Started! Nod to drop hook")
        (snd (onResults smilingFace initialGestureState)) = true
  /\ smileFires smilingFace
       (stateAfter initialGestureState (repeat smilingFace 120)) = true
  /\ occurs (SetStatus "Game Started! Nod to drop hook")
        (snd (onResults smilingFace
                (stateAfter initialGestureState (repeat smilingFace 120)))) = false
  /\ occurs (DispatchEvent "face:smile")
        (snd (onResults smilingFace
                (stateAfter initialGestureState (repeat smilingFace 120)))) = true.
Proof.
  rewrite (game_started_status_iff_first_smile smilingFace initialGestureState).
  rewrite (game_started_status_iff_first_smile smilingFace
             (stateAfter initialGestureState (repeat smilingFace 120))).
  vm_compute. done.
Defined.

(** X3.  In terms of the state a frame starts from: the [face:nod] event
    is dispatched exactly when the nod classifier returns [true] and the
    game had started or the smile classifier returns [true] on this very
    frame. *)
Theorem nod_event_on_starting_frame results st :
  occurs (DispatchEvent "face:nod") (snd (onResults results st))
  = nodFires results st && (gameStarted st || smileFires results st).
Proof.
  pose proof (pulses_are_verdicts results st) as (<- & <- & _).
  apply onResults_nod_event_start_log.
Qed.

Lemma nod_event_on_starting_frame_witness :
  (* a smile and a nod on the frame that starts the game *)
  gameStarted (stateAfter initialGestureState [neutralFace 0.5]) = false
  /\ smileFires (faceResults smilingNod)
       (stateAfter initialGestureState [neutralFace 0.5]) = true
  /\ nodFires (faceResults smilingNod)
       (stateAfter initialGestureState [neutralFace 0.5]) = true
  /\ occurs (DispatchEvent "face:nod")
        (snd (onResults (faceResults smilingNod)
                (stateAfter initialGestureState [neutralFace 0.5]))) = true
  (* a nod alone before the game has started *)
  /\ occurs (DispatchEvent "face:nod")
        (snd (onResults (neutralFace 0.6)
                (stateAfter initialGestureState [neutralFace 0.5]))) = false.
Proof.
  rewrite (nod_event_on_starting_frame (faceResults smilingNod)
             (stateAfter initialGestureState [neutralFace 0.5])).
  rewrite (nod_event_on_starting_frame (neutralFace 0.6)
             (stateAfter initialGestureState [neutralFace 0.5])).
  vm_compute. done.
Defined.

(** X4.  Face presence is edge-triggered.  After a frame the presence
    flag says whether the frame had a face; the face-acquired status
    (worded by whether the game has started) is shown only when a face
    arrives while the flag was down, and the face-lost status only when
    the face is gone while the flag was up. *)
Theorem face_presence_edge_triggered results st :
  faceDetected (fst (onResults results st)) = hasFace results
  /\ occurs (SetStatus (if gameStarted st
                       then "Face detected - Game controls active"
                       else "SMILE TO START GAME! (Nod to drop hook)"))
            (snd (onResults results st))
     = hasFace results && negb (faceDetected st)
  /\ occurs (SetStatus "No face detected - Please look at camera")
            (snd (onResults results st))
     = negb (hasFace results) && faceDetected st.
Proof.
  frame_cases results st.
  - clear Hbaseline. cbn in Hsmile, Hnod.
    destruct Hsmile as (_ & _ & _ & _ & Hfd & _ & Hs).
    destruct Hnod as (_ & _ & _ & Hfd2 & _ & Hn).
    unfold periodicStatus. cbn [fst snd faceDetected updateCooldowns set_cooldowns].
    rewrite Hfd2, Hfd. clear Hfd Hfd2.
    destruct p1, p2; event_cases st s2; cbn; done.
  - destruct st as [sb nb sc nc ln fc [|] [|]]; cbn; done.
Qed.

(** X5.  A pulse clears the window of the classifier that fired: the
    scores smoothed before a detection do not carry over to the next. *)
Theorem pulse_clears_window (c : Classifier) results st :
  pulseOf c (snd (onResults results st)) = true ->
  windowOf c (fst (onResults results st)) = [].
Proof.
  destruct c; cbn [pulseOf windowOf]; frame_cases results st.
  - clear Hbaseline. cbn in Hsmile, Hnod.
    destruct Hsmile as (_ & _ & _ & _ & _ & _ & Hs).
    destruct Hnod as (Hsb & _ & _ & _ & _ & Hn).
    unfold smilePulse, periodicStatus.
    cbn [fst snd smileBuffer updateCooldowns set_cooldowns].
    rewrite Hsb. clear Hsb.
    destruct p1, p2; event_cases st s2; cbn; done.
  - destruct (faceDetected st); cbn; done.
  - clear Hbaseline. cbn in Hsmile, Hnod.
    destruct Hsmile as (_ & _ & _ & _ & _ & _ & Hs).
    destruct Hnod as (_ & _ & _ & _ & _ & Hn).
    unfold nodPulse, periodicStatus.
    cbn [fst snd nodBuffer updateCooldowns set_cooldowns].
    destruct p1, p2; event_cases st s2; cbn; done.
  - destruct (faceDetected st); cbn; done.
Qed.

Lemma pulse_clears_window_witness :
  pulseOf Smile (snd (onResults smilingFace initialGestureState)) = true
  /\ windowOf Smile (fst (onResults smilingFace initialGestureState)) = [].
Proof.
  split; [vm_compute; reflexivity |].
  apply (pulse_clears_window Smile smilingFace initialGestureState).
  vm_compute; reflexivity.
Defined.

(** ** What every run of the handler keeps *)

Lemma detectGameSmile_window landmarks st :
  (length (smileBuffer st) <= 4)%nat ->
  (length (smileBuffer (snd (fst (detectGameSmile landmarks st)))) <= 4)%nat.
Proof.
  intros Hlen. unfold detectGameSmile, detectGameSmile_try.
  destruct (landmarkAt landmarks FACE_LANDMARKS.MOUTH_LEFT) as [[l |] | e1];
    destruct (landmarkAt landmarks FACE_LANDMARKS.MOUTH_RIGHT) as [[r |] | e2];
    destruct (landmarkAt landmarks FACE_LANDMARKS.MOUTH_TOP) as [[t |] | e3];
    destruct (landmarkAt landmarks FACE_LANDMARKS.MOUTH_BOTTOM) as [[b |] | e4];
    try (cbn; lia).
  pose proof (smoothBuffer_length 4 (smileBuffer st) (smileScore l r t b) Hlen) as Hw.
  destruct (smoothBuffer (smileBuffer st) (smileScore l r t b) 4) as [buffer smoothed].
  cbn [fst] in Hw. destruct (_ && _); cbn; lia.
Qed.

Lemma detectGameNod_window landmarks st :
  (length (nodBuffer st) <= 6)%nat ->
  (length (nodBuffer (snd (fst (detectGameNod landmarks st)))) <= 6)%nat.
Proof.
  intros Hlen. unfold detectGameNod, detectGameNod_try.
  destruct (landmarkAt landmarks FACE_LANDMARKS.NOSE_TIP) as [[noseTip |] | e];
    try (cbn; lia).
  destruct (lastNoseY st) as [last |]; [| cbn; lia].
  pose proof (smoothBuffer_length 6 (nodBuffer st) (y noseTip - last)%float Hlen) as Hw.
  destruct (smoothBuffer (nodBuffer st) (y noseTip - last)%float 6) as [buffer smoothed].
  cbn [fst] in Hw. destruct (_ && _); cbn; lia.
Qed.

Lemma onResults_windows results st :
  (length (smileBuffer st) <= 4)%nat -> (length (nodBuffer st) <= 6)%nat ->
  (length (smileBuffer (fst (onResults results st))) <= 4)%nat
  /\ (length (nodBuffer (fst (onResults results st))) <= 6)%nat.
Proof.
  intros Hsb Hnb. destruct (hasFace results) eqn:Hface.
  - unfold hasFace in Hface.
    destruct (multiFaceLandmarks results) as [[| lm rest] |] eqn:Hm;
      try discriminate Hface.
    pose proof (onResults_face results lm rest st Hm) as Heq. cbv zeta in Heq.
    set (st1 := set_faceDetected true _) in Heq.
    pose proof (detectGameSmile_frame lm st1) as Hs.
    pose proof (detectGameSmile_window lm st1 Hsb) as Hsw.
    destruct (detectGameSmile lm st1) as [[p1 s1] w1]. cbn [fst snd] in Hsw.
    destruct Hs as (Hnb1 & _). cbn in Hnb1.
    set (s1' := set_gameStarted _ s1) in Heq.
    pose proof (detectGameNod_frame lm s1') as Hn.
    pose proof (detectGameNod_window lm s1') as Hnw.
    destruct (detectGameNod lm s1') as [[p2 s2] w2]. cbn [fst snd] in Hnw.
    destruct Hn as (Hsb2 & _). cbn in Hsb2.
    rewrite Heq. cbn. rewrite Hsb2. split; [done |].
    apply Hnw. cbn. by rewrite Hnb1.
  - rewrite (onResults_noFace results st Hface). done.
Qed.

(** X6.  In every state the handler reaches from the initial one, the
    smile window holds at most 4 scores and the nod window at most 6
    differences. *)
Theorem windows_within_capacity (c : Classifier) frames :
  (length (windowOf c (stateAfter initialGestureState frames)) <= windowCapacity c)%nat.
Proof.
  assert ((length (smileBuffer (stateAfter initialGestureState frames)) <= 4)%nat
          /\ (length (nodBuffer (stateAfter initialGestureState frames)) <= 6)%nat)
    as [Hs Hn].
  { induction frames as [| results frames IH] using rev_ind.
    - cbn. lia.
    - rewrite stateAfter_snoc. destruct IH. by apply onResults_windows. }
  destruct c; done.
Qed.

(** X7.  In every state the handler reaches from the initial one, each
    cooldown timer lies between 0 and its duration less one: 0 to 119
    for the smile, 0 to 44 for the nod. *)
Theorem cooldowns_within_range (c : Classifier) frames :
  0 <= cooldownOf c (stateAfter initialGestureState frames)
       <= Z.of_nat (cooldownDuration c) - 1.
Proof.
  induction frames as [| results frames IH] using rev_ind.
  - destruct c; cbn; lia.
  - rewrite stateAfter_snoc.
    pose proof (onResults_cooldown c results (stateAfter initialGestureState frames)) as H.
    destruct (onResults results _) as [st' evs]. cbn [fst].
    destruct (pulseOf c evs).
    + destruct H as [_ ->]. destruct c; cbn; lia.
    + rewrite H. unfold tick.
      destruct (Z.ltb_spec 0 (cooldownOf c (stateAfter initialGestureState frames))); lia.
Qed.

(** X8.  The frame counter counts the processed frames, with and without
    a face, as long as their number is within the exact integers of a
    JavaScript number. *)
Theorem frameCount_counts_frames frames :
  Z.of_nat (length frames) <= 2 ^ 53 ->
  frameCount (stateAfter initialGestureState frames) = Z.of_nat (length frames).
Proof.
  induction frames as [| results frames IH] using rev_ind; [done |].
  rewrite length_app. cbn [length]. intros Hlen.
  rewrite stateAfter_snoc, onResults_frameCount, IH by lia.
  unfold Js.incr. destruct (Z.ltb_spec (Z.of_nat (length frames)) (2 ^ 53)); lia.
Qed.

Lemma frameCount_counts_frames_witness :
  Z.of_nat (length [noFace; smilingFace; noFace]) <= 2 ^ 53
  /\ frameCount (stateAfter initialGestureState [noFace; smilingFace; noFace]) = 3.
Proof.
  split; [cbn; lia |].
  apply (frameCount_counts_frames [noFace; smilingFace; noFace]). cbn; lia.
Defined.

Lemma existsb_ext_in {A} (f g : A -> bool) l :
  (forall a, In a l -> f a = g a) -> existsb f l = existsb g l.
Proof.
  induction l as [| a l IH]; [done |]. intros Hext. cbn.
  rewrite (Hext a) by (by left). rewrite IH; [done |].
  intros b Hb. apply Hext. by right.
Qed.

Lemma eventsAt_app_l st frames results i :
  (i < length frames)%nat ->
  eventsAt st (frames ++ [results]) i = eventsAt st frames i.
Proof.
  intros Hi. unfold eventsAt, stateBefore.
  rewrite lookup_app_l, take_app_le by lia. reflexivity.
Qed.

Lemma eventsAt_app_last st frames results :
  eventsAt st (frames ++ [results]) (length frames)
  = snd (onResults results (stateAfter st frames)).
Proof.
  unfold eventsAt, stateBefore.
  rewrite lookup_app_r, Nat.sub_diag, take_app_le, firstn_all by lia. reflexivity.
Qed.

(** X9.  The started-flag is never reset: after any sequence of frames,
    faces lost and found included, the game has started exactly when it
    had started before or the smile has fired on one of the frames. *)
Theorem gameStarted_iff_smile_seen st frames :
  gameStarted (stateAfter st frames)
  = gameStarted st
    || existsb (fun i => smilePulse (eventsAt st frames i)) (seq 0 (length frames)).
Proof.
  induction frames as [| results frames IH] using rev_ind.
  - cbn. by rewrite orb_false_r.
  - rewrite stateAfter_snoc, length_app. cbn [length].
    rewrite seq_app, existsb_app. cbn [seq existsb]. rewrite Nat.add_0_l, orb_false_r.
    rewrite eventsAt_app_last.
    pose proof (onResults_gameStarted results (stateAfter st frames)) as H.
    destruct (onResults results _) as [st' evs]. cbn [fst snd]. rewrite H, IH.
    rewrite orb_assoc. do 2 f_equal.
    apply existsb_ext_in. intros i Hi. apply in_seq in Hi.
    by rewrite eventsAt_app_l by lia.
Qed.

(** ** Edge behaviour of the classifiers *)

(** X10.  Without a recorded baseline the nod never fires, wherever the
    nose tip is: the first frame with a nose tip only records it. *)
Theorem nod_needs_baseline results st :
  lastNoseY st = None ->
  nodPulse (snd (onResults results st)) = false
  /\ lastNoseY (fst (onResults results st)) = y <$> noseTipOf results.
Proof.
  intros Hnull. pose proof (onResults_lastNoseY results st) as H.
  destruct (onResults results st) as [st' evs]. cbn [fst snd].
  destruct (noseTipOf results) as [noseTip |].
  - destruct (nodPulse evs); [by destruct H | done].
  - destruct H as [-> ->]. done.
Qed.

Lemma nod_needs_baseline_witness :
  lastNoseY initialGestureState = None
  /\ nodPulse (snd (onResults (neutralFace 0.9) initialGestureState)) = false
  /\ lastNoseY (fst (onResults (neutralFace 0.9) initialGestureState)) = Some 0.9%float.
Proof.
  split; [reflexivity |].
  apply (nod_needs_baseline (neutralFace 0.9) initialGestureState). reflexivity.
Defined.

(** X11.  When the nose tip is missing from the landmark set, the nod
    classifier reports no pulse and returns the state as it received it:
    baseline, window and timer included. *)
Theorem detectGameNod_missing_nose_tip landmarks st :
  landmarkAt landmarks FACE_LANDMARKS.NOSE_TIP = Ret None ->
  detectGameNod landmarks st = (false, st, []).
Proof.
  intros Hmissing. unfold detectGameNod, detectGameNod_try. by rewrite Hmissing.
Qed.

Lemma detectGameNod_missing_nose_tip_witness :
  landmarkAt (Some [Some (landmark 0.5 0.5)]) FACE_LANDMARKS.NOSE_TIP = Ret None
  /\ detectGameNod (Some [Some (landmark 0.5 0.5)]) initialGestureState
     = (false, initialGestureState, []).
Proof.
  split; [reflexivity |].
  apply (detectGameNod_missing_nose_tip (Some [Some (landmark 0.5 0.5)])
           initialGestureState).
  reflexivity.
Defined.

(** X12.  A frame without a face touches no gesture state: both windows,
    the baseline and the started-flag stay as they were, no classifier
    fires and no event is dispatched. *)
Theorem frame_without_face_keeps_gestures results st name :
  hasFace results = false ->
  smileBuffer (fst (onResults results st)) = smileBuffer st
  /\ nodBuffer (fst (onResults results st)) = nodBuffer st
  /\ lastNoseY (fst (onResults results st)) = lastNoseY st
  /\ gameStarted (fst (onResults results st)) = gameStarted st
  /\ smilePulse (snd (onResults results st)) = false
  /\ nodPulse (snd (onResults results st)) = false
  /\ occurs (DispatchEvent name) (snd (onResults results st)) = false.
Proof.
  intros Hlost. rewrite (onResults_noFace results st Hlost).
  destruct (faceDetected st); cbn; done.
Qed.

Lemma frame_without_face_keeps_gestures_witness :
  hasFace {| multiFaceLandmarks := Some [] |} = false
  /\ lastNoseY (fst (onResults {| multiFaceLandmarks := Some [] |}
                       (stateAfter initialGestureState [smilingFace])))
     = Some 0.5%float
  /\ gameStarted (fst (onResults {| multiFaceLandmarks := Some [] |}
                         (stateAfter initialGestureState [smilingFace])))
     = true.
Proof.
  split; [reflexivity |].
  destruct (frame_without_face_keeps_gestures {| multiFaceLandmarks := Some [] |}
              (stateAfter initialGestureState [smilingFace]) "face:nod" eq_refl)
    as (_ & _ & Hl & Hg & _).
  split; [rewrite Hl | rewrite Hg]; vm_compute; reflexivity.
Defined.

(** X13.  A face whose landmark array is undefined makes both classifiers
    throw; each exception is caught and logged as a warning, no pulse
    fires, and the gesture state is left as it was while the frame is
    still counted and the face still marked present. *)
Theorem undefined_landmarks_are_caught results rest st :
  multiFaceLandmarks results = Some (None :: rest) ->
  smilePulse (snd (onResults results st)) = false
  /\ nodPulse (snd (onResults results st)) = false
  /\ occurs (ConsoleWarn "Smile detection error:") (snd (onResults results st)) = true
  /\ occurs (ConsoleWarn "Nod detection error:") (snd (onResults results st)) = true
  /\ smileBuffer (fst (onResults results st)) = smileBuffer st
  /\ nodBuffer (fst (onResults results st)) = nodBuffer st
  /\ lastNoseY (fst (onResults results st)) = lastNoseY st
  /\ gameStarted (fst (onResults results st)) = gameStarted st
  /\ faceDetected (fst (onResults results st)) = true
  /\ frameCount (fst (onResults results st)) = Js.incr (frameCount st).
Proof.
  intros Hm. unfold onResults. rewrite Hm.
  destruct st as [sb nb sc nc ln fc fd gs].
  unfold faceAcquired, smileGesture, nodGesture, periodicStatus.
  cbn [faceDetected gameStarted frameCount set_frameCount set_faceDetected].
  destruct fd, gs; cbn [negb];
    cbn -[Js.incr Z.rem Z.eqb];
    destruct (Z.rem (Js.incr fc) 150 =? 0); cbn -[Js.incr]; done.
Qed.

Lemma undefined_landmarks_are_caught_witness :
  multiFaceLandmarks (faceResults None) = Some (None :: [])
  /\ smilePulse (snd (onResults (faceResults None) initialGestureState)) = false
  /\ occurs (ConsoleWarn "Smile detection error:")
        (snd (onResults (faceResults None) initialGestureState)) = true
  /\ occurs (ConsoleWarn "Nod detection error:")
        (snd (onResults (faceResults None) initialGestureState)) = true.
Proof.
  split; [reflexivity |].
  destruct (undefined_landmarks_are_caught (faceResults None) []
              initialGestureState eq_refl) as (Hs & _ & Hws & Hwn & _).
  split; [exact Hs | split; [exact Hws | exact Hwn]].
Defined.

(** X14.  With the four mouth landmarks present, the smile fires exactly
    when its timer has run out and the score of the frame, smoothed over
    the window of 4, is above 0.28. *)
Theorem smile_fires_iff_above_threshold results arr rest st l r t b :
  multiFaceLandmarks results = Some (Some arr :: rest) ->
  mjoin (arr !! FACE_LANDMARKS.MOUTH_LEFT) = Some l ->
  mjoin (arr !! FACE_LANDMARKS.MOUTH_RIGHT) = Some r ->
  mjoin (arr !! FACE_LANDMARKS.MOUTH_TOP) = Some t ->
  mjoin (arr !! FACE_LANDMARKS.MOUTH_BOTTOM) = Some b ->
  smilePulse (snd (onResults results st))
  = (smileCooldown st <=? 0)
    && (0.28 <? snd (smoothBuffer (smileBuffer st) (smileScore l r t b) 4))%float.
Proof.
  intros Hm Hl Hr Ht Hb.
  pose proof (onResults_face results (Some arr) rest st Hm) as Heq. cbv zeta in Heq.
  set (st1 := set_faceDetected true _) in Heq.
  assert (fst (fst (detectGameSmile (Some arr) st1))
          = (smileCooldown st <=? 0)
            && (0.28 <? snd (smoothBuffer (smileBuffer st) (smileScore l r t b) 4))%float)
    as Hfires.
  { unfold detectGameSmile, detectGameSmile_try, landmarkAt.
    rewrite Hl, Hr, Ht, Hb. subst st1. cbn [smileBuffer set_faceDetected set_frameCount].
    destruct (smoothBuffer (smileBuffer st) (smileScore l r t b) 4) as [buffer smoothed].
    cbn [smileCooldown snd]. destruct (_ && _); reflexivity. }
  pose proof (detectGameSmile_frame (Some arr) st1) as Hs.
  destruct (detectGameSmile (Some arr) st1) as [[p1 s1] w1]. cbn [fst] in Hfires.
  pose proof (detectGameNod_frame (Some arr)
                (set_gameStarted (gameStarted s1 || p1) s1)) as Hn.
  destruct (detectGameNod (Some arr) _) as [[p2 s2] w2].
  rewrite Heq. cbn [snd]. rewrite <- Hfires. clear Hfires Heq.
  destruct Hs as (_ & _ & _ & _ & _ & _ & Hs).
  destruct Hn as (_ & _ & _ & _ & _ & Hn).
  unfold smilePulse, periodicStatus.
  destruct p1, p2; event_cases st s2; cbn; done.
Qed.

Lemma smile_fires_iff_above_threshold_witness :
  multiFaceLandmarks (faceResults (Some pinchedMouth)) = Some (Some pinchedMouth :: [])
  /\ mjoin (pinchedMouth !! FACE_LANDMARKS.MOUTH_LEFT) = Some (landmark 0.5 0.6)
  /\ smilePulse (snd (onResults (faceResults (Some pinchedMouth)) initialGestureState))
     = true.
Proof.
  split; [reflexivity | split; [vm_compute; reflexivity |]].
  rewrite (smile_fires_iff_above_threshold (faceResults (Some pinchedMouth))
             pinchedMouth [] initialGestureState
             (landmark 0.5 0.6) (landmark 0.5 0.6)
             (landmark 0.5 0.58) (landmark 0.5 0.66));
    vm_compute; reflexivity.
Defined.

(** X15.  Counting from a pulse, the timer of the classifier that fired
    is back at 0 at the start of the frame [cooldownDuration] frames
    later, whether or not the frames in between show a face. *)
Theorem cooldown_expires_after_duration (c : Classifier) st frames i :
  pulseOf c (eventsAt st frames i) = true ->
  (i + cooldownDuration c <= length frames)%nat ->
  cooldownOf c (stateBefore st frames (i + cooldownDuration c)) = 0.
Proof.
  intros Hpulse Hlen.
  rewrite (cooldown_after_pulse c st frames i (cooldownDuration c) Hpulse); [lia | | done].
  destruct c; cbn; lia.
Qed.

Lemma cooldown_expires_after_duration_witness :
  pulseOf Nod (eventsAt initialGestureState
                 ([neutralFace 0.5; neutralFace 0.6] ++ repeat noFace 50) 1) = true
  /\ cooldownOf Nod (stateBefore initialGestureState
                       ([neutralFace 0.5; neutralFace 0.6] ++ repeat noFace 50) 46) = 0.
Proof.
  split; [vm_compute; reflexivity |].
  apply (cooldown_expires_after_duration Nod initialGestureState
           ([neutralFace 0.5; neutralFace 0.6] ++ repeat noFace 50) 1);
    [vm_compute; reflexivity | cbn; lia].
Defined.

(** X24.  One push on a window within a capacity of at least 1 leaves a
    window that is not empty (the average never divides by 0), still
    within the capacity, and ends with the value pushed. *)
Theorem smoothBuffer_within_capacity capacity buffer v :
  (1 <= capacity)%nat ->
  (length buffer <= capacity)%nat ->
  (1 <= length (fst (smoothBuffer buffer v capacity)) <= capacity)%nat
  /\ last (fst (smoothBuffer buffer v capacity)) = Some v.
Proof.
  intros Hcap Hlen. rewrite smoothBuffer_window by done.
  rewrite length_drop, length_app. cbn [length]. split; [lia |].
  rewrite last_lookup, lookup_drop, length_drop, length_app. cbn [length].
  replace (length buffer + 1 - capacity
           + Init.Nat.pred (length buffer + 1 - (length buffer + 1 - capacity)))%nat
    with (length buffer + 0)%nat by lia.
  by rewrite lookup_app_r, Nat.add_0_r, Nat.sub_diag by lia.
Qed.

Lemma smoothBuffer_within_capacity_witness :
  (1 <= 4)%nat /\ (length [1; 2; 3; 4]%float <= 4)%nat
  /\ fst (smoothBuffer [1; 2; 3; 4]%float 9 4) = [2; 3; 4; 9]%float
  /\ last (fst (smoothBuffer [1; 2; 3; 4]%float 9 4)) = Some 9%float.
Proof.
  split; [lia | split; [cbn; lia |]].
  split; [reflexivity |].
  apply (smoothBuffer_within_capacity 4 [1; 2; 3; 4]%float 9%float); cbn; lia.
Defined.

(** ** Start-up, path by path *)

(** X16.  The number of [face:fallback] events of a start-up, for every
    way it can go: none when the video element is missing or the camera
    comes up, one when FaceMesh is not loaded or cannot be set up or the
    camera promise rejects (play rejected, video error, timeout), two
    when [getUserMedia] rejects. *)
Theorem fallback_count_by_path h :
  fallbackCount (initGameFaceDetection h)
  = if negb (videoElFound h) then 0%nat
    else if negb (faceMeshLoaded h) then 1%nat
    else if negb (faceMeshConstructs h) then 1%nat
    else match camera h with
         | CameraReady => 0%nat
         | PermissionRefused _ => 2%nat
         | PlayRejected _ | VideoError | SetupTimeout => 1%nat
         end.
Proof. destruct h as [[|] [|] [|] []]; reflexivity. Qed.



(** X18.  No start-up, failed or not, dispatches a gesture event or
    submits a frame by itself: fallback events never come with gesture
    events. *)
Theorem startup_dispatches_no_gesture h :
  occurs (DispatchEvent "face:smile") (initGameFaceDetection h) = false
  /\ occurs (DispatchEvent "face:nod") (initGameFaceDetection h) = false
  /\ submissions (initGameFaceDetection h) = 0%nat.
Proof. destruct h as [[|] [|] [|] []]; cbn; done. Qed.

(** ** The page *)



(** X20.  On a page without [faceCam] the script logs the missing
    element and only then tries to create it: the look-up comes before
    the creation, so detection is not started and no fallback is
    dispatched, whatever FaceMesh and the camera would have done.  The
    camera elements are added when the body exists; while
    [document.body] is still [null] the script ends with the TypeError
    and the page stays as it was. *)
Theorem script_without_video_element doc loaded constructs c :
  getElementById doc "faceCam" = false ->
  faceScript doc loaded constructs c
  = (if bodyParsed doc
     then Ret {| elements := elements doc ++ ["camera-container"; "faceCam"; "camStatus"];
                 bodyParsed := true |}
     else Throw "TypeError: Cannot read properties of null",
     [ConsoleError "Video element #faceCam not found";
      ConsoleLog "Creating face camera element for Gold Miner"])
  /\ fallbackCount (snd (faceScript doc loaded constructs c)) = 0%nat
  /\ submissions (snd (faceScript doc loaded constructs c)) = 0%nat.
Proof.
  intros Hcam. unfold faceScript, ensureVideoElement. rewrite Hcam.
  destruct (bodyParsed doc); done.
Qed.

Lemma script_without_video_element_witness :
  getElementById {| elements := ["game"; "score"]; bodyParsed := true |} "faceCam" = false
  /\ fst (faceScript {| elements := ["game"; "score"]; bodyParsed := true |}
            false true SetupTimeout)
     = Ret {| elements := ["game"; "score"; "camera-container"; "faceCam"; "camStatus"];
              bodyParsed := true |}
  /\ getElementById {| elements := []; bodyParsed := false |} "faceCam" = false
  /\ faceScript {| elements := []; bodyParsed := false |} true true CameraReady
     = (Throw "TypeError: Cannot read properties of null",
        [ConsoleError "Video element #faceCam not found";
         ConsoleLog "Creating face camera element for Gold Miner"]).
Proof.
  destruct (script_without_video_element
              {| elements := ["game"; "score"]; bodyParsed := true |}
              false true SetupTimeout eq_refl) as (Hbody & _).
  destruct (script_without_video_element
              {| elements := []; bodyParsed := false |}
              true true CameraReady eq_refl) as (Hnull & _).
  split; [reflexivity |].
  split; [by rewrite Hbody |].
  split; [reflexivity |].
  exact Hnull.
Defined.

(** ** The frame pacer over a run *)

(** X21.  The loop neither dies nor forks: in every state the pacer
    reaches, exactly one thing is pending, the callback for the next
    display refresh or one submission in flight, and [isProcessing] says
    which.  A submission that throws or rejects leaves the loop running
    like one that resolves. *)
Theorem pacer_loop_alive steps :
  (scheduled (pacerAfter startGameFrameProcessing steps)
   + inFlight (pacerAfter startGameFrameProcessing steps) = 1)%nat
  /\ isProcessing (pacerAfter startGameFrameProcessing steps)
     = (inFlight (pacerAfter startGameFrameProcessing steps) =? 1)%nat.
Proof.
  destruct (pacerAfter_waiting steps) as [(-> & -> & ->) | (-> & -> & ->)]; done.
Qed.

(** X22.  When a display refresh makes a submission: a callback is
    scheduled, the incremented skip counter is even, and the video has a
    width and a decoded frame ([readyState] at least 2).  Any other
    refresh submits nothing. *)
Theorem pacer_submission_condition steps video send :
  submissions (snd (hostStep (Refresh video send)
                      (pacerAfter startGameFrameProcessing steps)))
  = if (scheduled (pacerAfter startGameFrameProcessing steps) =? 1)%nat
       && (Z.rem (Js.incr (frameSkipCounter
                             (pacerAfter startGameFrameProcessing steps))) 2 =? 0)
       && negb (videoWidth video =? 0)
       && (2 <=? readyState video)
    then 1%nat else 0%nat.
Proof.
  pose proof (pacerAfter_waiting steps) as Hw.
  destruct (pacerAfter startGameFrameProcessing steps) as [processing counter sched flying].
  destruct Hw as [(Hf & Hs & Hp) | (Hf & Hs & Hp)]; cbn in Hf, Hs, Hp; subst.
  - cbn [hostStep scheduled runCallbacks isProcessing frameSkipCounter inFlight].
    unfold processGameFrame. cbn [frameSkipCounter isProcessing].
    destruct (Z.rem (Js.incr counter) 2 =? 0); cbn [negb andb]; [| reflexivity].
    destruct (videoWidth video =? 0); cbn [negb andb orb]; [reflexivity |].
    rewrite Z.leb_antisym.
    destruct (readyState video <? 2); cbn [negb andb orb]; [reflexivity |].
    destruct send; reflexivity.
  - reflexivity.
Qed.

Lemma submissionsPerStep_snoc st steps h :
  submissionsPerStep st (steps ++ [h])
  = submissionsPerStep st steps
    ++ [submissions (snd (hostStep h (pacerAfter st steps)))].
Proof.
  revert st. induction steps as [| h' steps IH]; intros st.
  - cbn. destruct (hostStep h st). reflexivity.
  - cbn [app submissionsPerStep]. unfold pacerAfter. cbn [fold_left].
    destruct (hostStep h' st) as [st' evs]. cbn [fst].
    by rewrite IH.
Qed.

Lemma refreshCount_snoc steps h :
  refreshCount (steps ++ [h])
  = (refreshCount steps + match h with Refresh _ _ => 1 | Settle _ => 0 end)%nat.
Proof.
  unfold refreshCount. rewrite List.filter_app, length_app. by destruct h.
Qed.

(** The skip counter counts the callbacks run, and no more than half of
    them have submitted. *)
Lemma pacer_counter_bounds steps :
  Z.of_nat (refreshCount steps) <= 2 ^ 53 ->
  0 <= frameSkipCounter (pacerAfter startGameFrameProcessing steps)
    <= Z.of_nat (refreshCount steps)
  /\ 2 * Z.of_nat (list_sum (submissionsPerStep startGameFrameProcessing steps))
     <= frameSkipCounter (pacerAfter startGameFrameProcessing steps).
Proof.
  induction steps as [| h steps IH] using rev_ind; [cbn; lia |].
  rewrite refreshCount_snoc, submissionsPerStep_snoc, pacerAfter_snoc, list_sum_app.
  cbn [list_sum]. intros Hlen.
  destruct IH as [Hc Hsub]; [lia |].
  pose proof (pacerAfter_waiting steps) as Hw.
  destruct (pacerAfter startGameFrameProcessing steps) as [processing counter sched flying].
  cbn [frameSkipCounter] in *.
  destruct Hw as [(Hf & Hs & Hp) | (Hf & Hs & Hp)]; cbn in Hf, Hs, Hp; subst.
  - destruct h as [video send | resolved]; [| cbn; lia].
    cbn [hostStep scheduled runCallbacks isProcessing frameSkipCounter inFlight].
    unfold processGameFrame. cbn [frameSkipCounter isProcessing].
    assert (Js.incr counter = counter + 1) as ->.
    { unfold Js.incr. destruct (Z.ltb_spec counter (2 ^ 53)); lia. }
    destruct (Z.eqb_spec (Z.rem (counter + 1) 2) 0) as [Heven | Hodd];
      cbn [negb]; [| cbn; lia].
    assert (2 * Z.of_nat (list_sum (submissionsPerStep startGameFrameProcessing steps)) + 2
            <= counter + 1) as Hroom.
    { rewrite Z.rem_mod_nonneg in Heven by lia.
      pose proof (Z.div_mod (counter + 1) 2 ltac:(lia)). lia. }
    destruct (_ || _); [cbn; lia |].
    destruct send; cbn; lia.
  - destruct h as [video send | [|]]; cbn; lia.
Qed.

(** X23.  At most every second display refresh submits a frame: over any
    run, twice the number of submissions is at most the number of
    refreshes (for runs within the exact integers of the skip counter). *)
Theorem pacer_submits_at_most_every_second_refresh steps :
  Z.of_nat (refreshCount steps) <= 2 ^ 53 ->
  (2 * list_sum (submissionsPerStep startGameFrameProcessing steps)
   <= refreshCount steps)%nat.
Proof.
  intros Hlen. destruct (pacer_counter_bounds steps Hlen) as [Hc Hsub]. lia.
Qed.

Lemma pacer_submits_at_most_every_second_refresh_witness :
  Z.of_nat (refreshCount [Refresh readyVideo SendReturnsPromise;
                          Refresh readyVideo SendReturnsPromise; Settle true;
                          Refresh readyVideo SendThrows;
                          Refresh readyVideo SendThrows]) <= 2 ^ 53
  /\ (2 * list_sum (submissionsPerStep startGameFrameProcessing
                      [Refresh readyVideo SendReturnsPromise;
                       Refresh readyVideo SendReturnsPromise; Settle true;
                       Refresh readyVideo SendThrows;
                       Refresh readyVideo SendThrows])
      <= 4)%nat.
Proof.
  split; [cbn; lia |].
  apply (pacer_submits_at_most_every_second_refresh
           [Refresh readyVideo SendReturnsPromise;
            Refresh readyVideo SendReturnsPromise; Settle true;
            Refresh readyVideo SendThrows;
            Refresh readyVideo SendThrows]).
  cbn; lia.
Defined.
